(** * Patient Management System (FastAPI): the record model and the update merge

    A shallow embedding of [src/main.py]: the [Patient] model with its two
    computed fields, the [PatientUpdate] payload, the JSON store held in the
    file [patients.JSON], and the endpoints that read and write it.

    Conventions.
    - A Python [float] is a binary64 number: Rocq's primitive [float].
    - A Python [int] is a [Z]; a [str] is a [string] (its UTF-8 bytes).
    - A Python [dict] is an association list in insertion order, with
      unique keys ([dict_set] replaces in place or appends).
    - Field values of a raw record are the JSON scalars (null, booleans,
      numbers, strings).
    - An endpoint is a computation over the [world]: the contents of the
      store file and the log of the loads and saves performed so far.  A
      raised exception ends the computation and leaves the world as it was
      at that point. *)

From Stdlib Require Import ZArith List String Ascii Bool Lia.
From Stdlib Require Import Floats Permutation Sorted.
Import ListNotations.

Local Open Scope string_scope.
Local Open Scope Z_scope.

Set Implicit Arguments.
Set Warnings "-inexact-float".

(** ** JSON scalars and exceptions *)

Inductive jval : Type :=
| JNull
| JBool (b : bool)
| JInt (z : Z)
| JFloat (f : float)
| JStr (s : string).

(** The exceptions the program can raise.  A pydantic [ValidationError]
    carries the names of the offending fields, in field order. *)
Inductive exn : Type :=
| HTTPException (status_code : Z) (detail : string)
| ValidationError (errors : list string)
| ZeroDivisionError
| OverflowError
| TypeError.

Inductive result (A : Type) : Type :=
| Ok (a : A)
| Raise (e : exn).

Arguments Ok {A} a.
Arguments Raise {A} e.

Definition rbind {A B} (r : result A) (k : A -> result B) : result B :=
  match r with
  | Ok a => k a
  | Raise e => Raise e
  end.

(** ** Python dictionaries *)

Definition dict (V : Type) : Type := list (string * V).

Fixpoint dict_get {V} (k : string) (d : dict V) : option V :=
  match d with
  | [] => None
  | (k', v) :: t => if String.eqb k k' then Some v else dict_get k t
  end.

(** [d[k] = v] *)
Fixpoint dict_set {V} (k : string) (v : V) (d : dict V) : dict V :=
  match d with
  | [] => [(k, v)]
  | (k', v') :: t =>
      if String.eqb k k' then (k', v) :: t else (k', v') :: dict_set k v t
  end.

(** [del d[k]] *)
Fixpoint dict_del {V} (k : string) (d : dict V) : dict V :=
  match d with
  | [] => []
  | (k', v') :: t =>
      if String.eqb k k' then t else (k', v') :: dict_del k t
  end.

(** [k in d] *)
Definition dict_in {V} (k : string) (d : dict V) : bool :=
  match dict_get k d with
  | Some _ => true
  | None => false
  end.

Definition dict_keys {V} (d : dict V) : list string := map fst d.
Definition dict_values {V} (d : dict V) : list V := map snd d.

(** A raw record, and the store: the whole collection keyed by id. *)
Definition raw : Type := dict jval.
Definition store : Type := dict raw.

(** ** Python float arithmetic *)

(** [bool(x)] for a float: false exactly at [0.0] and [-0.0]. *)
Definition float_truthy (x : float) : bool := negb (PrimFloat.eqb x 0%float).

(** [x ** 2].  CPython's [float_pow] returns an infinite or NaN base
    unchanged in kind, calls the C library's [pow] otherwise and raises
    [OverflowError] when the result overflows; an underflow yields [0.0].
    The C library's result is modelled as the correctly rounded square. *)
Definition float_pow2 (x : float) : result float :=
  let r := (x * x)%float in
  if is_infinity r && negb (is_infinity x) then Raise OverflowError else Ok r.

(** [a / b]: raises [ZeroDivisionError] at a zero divisor. *)
Definition float_div (a b : float) : result float :=
  if PrimFloat.eqb b 0%float then Raise ZeroDivisionError else Ok (a / b)%float.

(** ** Field validation (pydantic)

    A field of type [str] accepts a string only, and [Literal[...]] one of
    its strings.  A field of type [int] or [float] accepts a value of that
    exact type; for a value of another type (a number of the other kind, a
    boolean, a numeric string) pydantic applies its lax-mode conversion,
    which belongs to the library: the development is parametric in it.
    No field accepts null. *)
Class Coercions : Type := {
  lax_int : jval -> option Z;
  lax_float : jval -> option float
}.

Definition validate_str (v : jval) : option string :=
  match v with
  | JStr s => Some s
  | _ => None
  end.

Definition validate_int `{Coercions} (v : jval) : option Z :=
  match v with
  | JInt z => Some z
  | JNull => None
  | _ => lax_int v
  end.

Definition validate_float `{Coercions} (v : jval) : option float :=
  match v with
  | JFloat f => Some f
  | JNull => None
  | _ => lax_float v
  end.

(** ** The Patient model *)

Inductive Gender : Type := Male | Female | Other.

Definition gender_str (g : Gender) : string :=
  match g with
  | Male => "Male"
  | Female => "Female"
  | Other => "Other"
  end.

(** [Literal["Male", "Female", "Other"]] *)
Definition validate_gender (v : jval) : option Gender :=
  match v with
  | JStr s =>
      if String.eqb s "Male" then Some Male
      else if String.eqb s "Female" then Some Female
      else if String.eqb s "Other" then Some Other
      else None
  | _ => None
  end.

(** The validation of the field [k] of a model from keyword arguments:
    the key has to be present and its value has to validate. *)
Definition field {A} (validate : jval -> option A) (k : string) (kwargs : raw)
  : option A :=
  match dict_get k kwargs with
  | Some v => validate v
  | None => None
  end.

(** The entry of the field [k] in the error list. *)
Definition errors_of {A} (k : string) (r : option A) : list string :=
  match r with
  | Some _ => []
  | None => [k]
  end.

(** The JSON value of an optional float: [None] is null. *)
Definition json_of_bmi (b : option float) : jval :=
  match b with
  | Some x => JFloat x
  | None => JNull
  end.

Module Patient.

Record t : Type := make {
  id : string;
  name : string;
  city : string;
  age : Z;
  height : float;
  gender : Gender;
  weight : float
}.

(** The body of the [bmi] property, as a function of the two fields it
    reads. *)
Definition compute_bmi (height weight : float) : result (option float) :=
  if float_truthy weight && float_truthy height then
    rbind (float_pow2 height) (fun h2 =>
    rbind (float_div weight h2) (fun b => Ok (Some b)))
  else Ok None.

Definition bmi (self : t) : result (option float) :=
  compute_bmi (height self) (weight self).

(** The classification of [bmi_category], as a function of the value of
    [self.bmi].  The integer literal [25] compares with a float as
    [25.0] does. *)
Definition compute_bmi_category (bmi : option float) : string :=
  match bmi with
  | None => "Unknown"
  | Some bmi =>
      if (bmi <? 18.5)%float then "Underweight"
      else if (18.5 <=? bmi)%float && (bmi <? 24.9)%float then "Normal weight"
      else if (25 <=? bmi)%float && (bmi <? 29.9)%float then "Overweight"
      else "Obesity"
  end.

Definition bmi_category (self : t) : result string :=
  rbind (bmi self) (fun b => Ok (compute_bmi_category b)).

(** The constructor called with keyword arguments: every field is required; a key that is not a
    field is ignored; the errors of all fields are collected. *)
Definition validate `{Coercions} (kwargs : raw) : result t :=
  let id' := field validate_str "id" kwargs in
  let name' := field validate_str "name" kwargs in
  let city' := field validate_str "city" kwargs in
  let age' := field validate_int "age" kwargs in
  let height' := field validate_float "height" kwargs in
  let gender' := field validate_gender "gender" kwargs in
  let weight' := field validate_float "weight" kwargs in
  match id', name', city', age', height', gender', weight' with
  | Some i, Some n, Some c, Some a, Some h, Some g, Some w =>
      Ok (make i n c a h g w)
  | _, _, _, _, _, _, _ =>
      Raise (ValidationError
               (errors_of "id" id' ++ errors_of "name" name' ++
                errors_of "city" city' ++ errors_of "age" age' ++
                errors_of "height" height' ++ errors_of "gender" gender' ++
                errors_of "weight" weight')%list)
  end.

(** [self.model_dump(exclude=...)]: the fields in declaration order,
    then the computed fields, each computed by its property; the keys
    of [exclude] are left out.  An exception of a property propagates. *)
Definition model_dump (exclude : list string) (self : t) : result raw :=
  rbind (bmi self) (fun b =>
  rbind (bmi_category self) (fun c =>
  Ok (filter (fun kv => negb (existsb (String.eqb (fst kv)) exclude))
        [("id", JStr (id self));
         ("name", JStr (name self));
         ("city", JStr (city self));
         ("age", JInt (age self));
         ("height", JFloat (height self));
         ("gender", JStr (gender_str (gender self)));
         ("weight", JFloat (weight self));
         ("bmi", json_of_bmi b);
         ("bmi_category", JStr c)]))).

End Patient.

(** ** The update payload

    Every field of [PatientUpdate] is annotated [Optional[...]] and has no
    default: pydantic requires the key and accepts [None] for it.  A field
    of an instance is [None] when it is not in [model_fields_set], and
    [Some v] when it was set to [v], [v] itself being [None] for an
    explicit null. *)
Module PatientUpdate.

Record t : Type := make {
  name : option (option string);
  city : option (option string);
  age : option (option Z);
  height : option (option float);
  gender : option (option Gender);
  weight : option (option float)
}.

(** The payload with no field set. *)
Definition unset : t := make None None None None None None.

Definition entry {A} (k : string) (inj : A -> jval) (f : option (option A))
  : raw :=
  match f with
  | None => []
  | Some None => [(k, JNull)]
  | Some (Some a) => [(k, inj a)]
  end.

(** [self.model_dump(exclude_unset=True)]: the fields that were set, in
    declaration order. *)
Definition model_dump_exclude_unset (self : t) : raw :=
  (entry "name" JStr (name self) ++
   entry "city" JStr (city self) ++
   entry "age" JInt (age self) ++
   entry "height" JFloat (height self) ++
   entry "gender" (fun g => JStr (gender_str g)) (gender self) ++
   entry "weight" JFloat (weight self))%list.

(** A field of the request body: required, null allowed. *)
Definition nullable {A} (validate : jval -> option A) (v : jval)
  : option (option A) :=
  match v with
  | JNull => Some None
  | _ => option_map Some (validate v)
  end.

(** The validation of a request body into a [PatientUpdate], as FastAPI
    performs it for the [patient_update] parameter: every key is
    required, keys that are not fields are ignored, and every validated
    field is in [model_fields_set]. *)
Definition validate `{Coercions} (body : raw) : result t :=
  let name' := field (nullable validate_str) "name" body in
  let city' := field (nullable validate_str) "city" body in
  let age' := field (nullable validate_int) "age" body in
  let height' := field (nullable validate_float) "height" body in
  let gender' := field (nullable validate_gender) "gender" body in
  let weight' := field (nullable validate_float) "weight" body in
  match name', city', age', height', gender', weight' with
  | Some n, Some c, Some a, Some h, Some g, Some w =>
      Ok (make (Some n) (Some c) (Some a) (Some h) (Some g) (Some w))
  | _, _, _, _, _, _ =>
      Raise (ValidationError
               (errors_of "name" name' ++ errors_of "city" city' ++
                errors_of "age" age' ++ errors_of "height" height' ++
                errors_of "gender" gender' ++ errors_of "weight" weight')%list)
  end.

End PatientUpdate.

(** ** The order of binary64 numbers

    The comparisons of primitive floats are specified by [SFcompare] on
    their [spec_float] view.  That comparison is the lexicographic order
    of a rank: the class of the number (negative infinity, negative, zero,
    positive, positive infinity), then the exponent and the mantissa,
    both negated for a negative number.  NaN has no rank. *)

Definition rank : Type := (Z * Z * Z)%type.

Definition frank (f : spec_float) : option rank :=
  match f with
  | S754_nan => None
  | S754_zero _ => Some (0, 0, 0)
  | S754_infinity true => Some (-2, 0, 0)
  | S754_infinity false => Some (2, 0, 0)
  | S754_finite true m e => Some (-1, - e, Z.neg m)
  | S754_finite false m e => Some (1, e, Z.pos m)
  end.

Definition rank_lt (a b : rank) : Prop :=
  let '(a1, a2, a3) := a in
  let '(b1, b2, b3) := b in
  a1 < b1 \/ (a1 = b1 /\ (a2 < b2 \/ (a2 = b2 /\ a3 < b3))).

Definition rank_le (a b : rank) : Prop :=
  let '(a1, a2, a3) := a in
  let '(b1, b2, b3) := b in
  a1 < b1 \/ (a1 = b1 /\ (a2 < b2 \/ (a2 = b2 /\ a3 <= b3))).

(** The rank of a primitive float. *)
Definition rk (x : float) : option rank := frank (Prim2SF x).

Definition flt (x y : float) : Prop :=
  match rk x, rk y with
  | Some a, Some b => rank_lt a b
  | _, _ => False
  end.

Definition fle (x y : float) : Prop :=
  match rk x, rk y with
  | Some a, Some b => rank_le a b
  | _, _ => False
  end.


(** ** Python's [<] on JSON scalars and [sorted]

    Numbers compare by value, an [int] with a [float] exactly; a boolean
    is the integer 0 or 1; strings compare lexicographically; every other
    pair, and any pair with [None], raises [TypeError]. *)

Definition int_lt_float (z : Z) (f : float) : bool :=
  match Prim2SF f with
  | S754_nan => false
  | S754_infinity s => negb s
  | S754_zero _ => z <? 0
  | S754_finite s m e =>
      let v := if s then Z.neg m else Z.pos m in
      if 0 <=? e then z <? v * 2 ^ e else z * 2 ^ (- e) <? v
  end.

Definition float_lt_int (f : float) (z : Z) : bool :=
  match Prim2SF f with
  | S754_nan => false
  | S754_infinity s => s
  | S754_zero _ => 0 <? z
  | S754_finite s m e =>
      let v := if s then Z.neg m else Z.pos m in
      if 0 <=? e then v * 2 ^ e <? z else v <? z * 2 ^ (- e)
  end.

Definition py_lt (a b : jval) : result bool :=
  match a, b with
  | JInt x, JInt y => Ok (x <? y)
  | JInt x, JBool y => Ok (x <? Z.b2z y)
  | JBool x, JInt y => Ok (Z.b2z x <? y)
  | JBool x, JBool y => Ok (Z.b2z x <? Z.b2z y)
  | JFloat x, JFloat y => Ok (x <? y)%float
  | JInt x, JFloat y => Ok (int_lt_float x y)
  | JBool x, JFloat y => Ok (int_lt_float (Z.b2z x) y)
  | JFloat x, JInt y => Ok (float_lt_int x y)
  | JFloat x, JBool y => Ok (float_lt_int x (Z.b2z y))
  | JStr x, JStr y => Ok (String.ltb x y)
  | _, _ => Raise TypeError
  end.

Section Sorted.

Variable A : Type.
Variable key : A -> jval.

(** [x] goes in front of the first element that is not below it, so it
    stays in front of the elements it ties with. *)
Fixpoint insert (x : A) (l : list A) : result (list A) :=
  match l with
  | [] => Ok [x]
  | y :: t =>
      rbind (py_lt (key y) (key x)) (fun below =>
      if below then rbind (insert x t) (fun t' => Ok (y :: t'))
      else Ok (x :: y :: t))
  end.

Fixpoint stable_sort (l : list A) : result (list A) :=
  match l with
  | [] => Ok []
  | x :: t => rbind (stable_sort t) (insert x)
  end.

(** [sorted(l, key=key, reverse=reverse)].  Python specifies a stable
    sort that compares keys with [<] only; with [reverse] the list is
    reversed before and after, which keeps ties in their original
    order.  Where [<] is a strict weak order on the keys present, every
    such sort returns the same list; that list is computed here by
    insertion.  A comparison that raises makes the whole sort raise. *)
Definition sorted (l : list A) (reverse : bool) : result (list A) :=
  if reverse then rbind (stable_sort (rev l)) (fun s => Ok (rev s))
  else stable_sort l.

End Sorted.

(** ** The store file and the endpoints *)

Inductive event : Type :=
| Load
| Save (data : store).

Record world : Type := {
  file : store;
  log : list event
}.

Definition M (A : Type) : Type := world -> result A * world.

Definition ret {A} (a : A) : M A := fun w => (Ok a, w).

Definition raise {A} (e : exn) : M A := fun w => (Raise e, w).

Definition bind {A B} (m : M A) (k : A -> M B) : M B :=
  fun w =>
    match m w with
    | (Ok a, w') => k a w'
    | (Raise e, w') => (Raise e, w')
    end.

Definition lift {A} (r : result A) : M A := fun w => (r, w).

Notation "x <- m ;; k" := (bind m (fun x => k))
  (at level 61, m at next level, right associativity).
Notation "m ;;; k" := (bind m (fun _ => k))
  (at level 61, right associativity).

(** [json.load] of the store file. *)
Definition get_patient_data : M store :=
  fun w => (Ok (file w), {| file := file w; log := log w ++ [Load] |}).

(** [json.dump] of the whole collection to the store file. *)
Definition save_patient_data (data : store) : M unit :=
  fun w => (Ok tt, {| file := data; log := log w ++ [Save data] |}).

Inductive response : Type :=
| JSONResponse (content : dict string) (status_code : Z).


Definition view_patient (patient_id : string) : M raw :=
  data <- get_patient_data ;;
  match dict_get patient_id data with
  | Some r => ret r
  | None => raise (HTTPException 404 "Patient not found")
  end.

Definition valid_fields : list string := ["height"; "weight"; "bmi"].

(** [x.get(k)]: [None] for a missing key. *)
Definition get_or_none (k : string) (x : raw) : jval :=
  match dict_get k x with
  | Some v => v
  | None => JNull
  end.

Definition sort_patients (sort_by order : string) : M (list raw) :=
  if negb (existsb (String.eqb sort_by) valid_fields) then
    raise (HTTPException 400
      "Invalid sort_by field. Must be one of ['height', 'weight', 'bmi']")
  else if negb (existsb (String.eqb order) ["asc"; "desc"]) then
    raise (HTTPException 400 "Invalid order. Must be 'asc' or 'desc'")
  else
    data <- get_patient_data ;;
    let sort_order := if String.eqb order "desc" then true else false in
    lift (sorted (get_or_none sort_by) (dict_values data) sort_order).

Definition create_patiet (patient : Patient.t) : M response :=
  data <- get_patient_data ;;
  if dict_in (Patient.id patient) data then
    raise (HTTPException 400 "Patient ID already exists")
  else
    dumped <- lift (Patient.model_dump ["id"] patient) ;;
    let data := dict_set (Patient.id patient) dumped data in
    save_patient_data data ;;;
    ret (JSONResponse [("Message", "Patient created successfully")] 201).

(** The loop of [update_patient]: [existing_patient[key] = value] for
    every item of [updated_data], in order. *)
Definition overlay (updated_data existing_patient : raw) : raw :=
  fold_left (fun d kv => dict_set (fst kv) (snd kv) d)
    updated_data existing_patient.

(** The membership test and the lookup of [patient_id] are one match.
    [existing_patient] is the dictionary held in [data] under
    [patient_id]: what the loop and the assignment of ['id'] store into it
    is stored into [data] as well, until the name is bound to the new
    dump. *)
Definition update_patient `{Coercions}
  (patient_id : string) (patient_update : PatientUpdate.t) : M response :=
  data <- get_patient_data ;;
  match dict_get patient_id data with
  | None => raise (HTTPException 404 "Patient not found")
  | Some existing_patient =>
      let updated_data :=
        PatientUpdate.model_dump_exclude_unset patient_update in
      let existing_patient := overlay updated_data existing_patient in
      let existing_patient :=
        dict_set "id" (JStr patient_id) existing_patient in
      let data := dict_set patient_id existing_patient data in
      Patient_pydantic_obj <- lift (Patient.validate existing_patient) ;;
      existing_patient <-
        lift (Patient.model_dump ["id"] Patient_pydantic_obj) ;;
      let data := dict_set patient_id existing_patient data in
      save_patient_data data ;;;
      ret (JSONResponse [("Message", "Patient updated successfully")] 200)
  end.

Definition delete_patient (patient_id : string) : M response :=
  data <- get_patient_data ;;
  if negb (dict_in patient_id data) then
    raise (HTTPException 404 "Patient not found")
  else
    let data := dict_del patient_id data in
    save_patient_data data ;;;
    ret (JSONResponse [("Message", "Patient deleted successfully")] 200).

(** What an endpoint returns, and the world it leaves. *)
Definition run {A} (m : M A) (data : store) : result A * world :=
  m {| file := data; log := [] |}.

(** ** Vocabulary of the properties *)

Definition primary_fields : list string :=
  ["name"; "city"; "age"; "height"; "gender"; "weight"].

(** The keys of a record as [create_patiet] and [update_patient] write
    it. *)
Definition dumped_fields : list string :=
  (primary_fields ++ ["bmi"; "bmi_category"])%list.

(** The stored bmi and category of [r] are the ones computed from its
    stored height and weight. *)
Definition derived_from_stored (r : raw) : Prop :=
  exists h w b,
    dict_get "height" r = Some (JFloat h) /\
    dict_get "weight" r = Some (JFloat w) /\
    Patient.compute_bmi h w = Ok b /\
    dict_get "bmi" r = Some (json_of_bmi b) /\
    dict_get "bmi_category" r = Some (JStr (Patient.compute_bmi_category b)).

(** The dump of a patient without its id, given its bmi. *)
Definition dump_of (p : Patient.t) (b : option float) : raw :=
  [("name", JStr (Patient.name p));
   ("city", JStr (Patient.city p));
   ("age", JInt (Patient.age p));
   ("height", JFloat (Patient.height p));
   ("gender", JStr (gender_str (Patient.gender p)));
   ("weight", JFloat (Patient.weight p));
   ("bmi", json_of_bmi b);
   ("bmi_category", JStr (Patient.compute_bmi_category b))].

Definition created : response :=
  JSONResponse [("Message", "Patient created successfully")] 201.

Definition updated : response :=
  JSONResponse [("Message", "Patient updated successfully")] 200.

(** The mapping [update_patient] validates: the stored record overlaid
    with the payload, the id force-set. *)
Definition merged (patient_id : string) (u : PatientUpdate.t) (r : raw)
  : raw :=
  dict_set "id" (JStr patient_id)
    (overlay (PatientUpdate.model_dump_exclude_unset u) r).

(** The value of a key after the merge: the one of the payload where the
    payload sets the field, the prior one otherwise. *)
Definition merged_value (u : PatientUpdate.t) (r : raw) (k : string)
  : option jval :=
  let pick {A} (inj : A -> jval) (f : option (option A)) :=
    match f with
    | None => dict_get k r
    | Some None => Some JNull
    | Some (Some a) => Some (inj a)
    end in
  if String.eqb k "name" then pick JStr (PatientUpdate.name u)
  else if String.eqb k "city" then pick JStr (PatientUpdate.city u)
  else if String.eqb k "age" then pick JInt (PatientUpdate.age u)
  else if String.eqb k "height" then pick JFloat (PatientUpdate.height u)
  else if String.eqb k "gender" then
    pick (fun g => JStr (gender_str g)) (PatientUpdate.gender u)
  else if String.eqb k "weight" then pick JFloat (PatientUpdate.weight u)
  else dict_get k r.

(** The payload sets the field [f] to an explicit null. *)
Definition explicit_null (f : string) (u : PatientUpdate.t) : Prop :=
  (f = "name" /\ PatientUpdate.name u = Some None) \/
  (f = "city" /\ PatientUpdate.city u = Some None) \/
  (f = "age" /\ PatientUpdate.age u = Some None) \/
  (f = "height" /\ PatientUpdate.height u = Some None) \/
  (f = "gender" /\ PatientUpdate.gender u = Some None) \/
  (f = "weight" /\ PatientUpdate.weight u = Some None).

(** The payload that sets the weight and nothing else. *)
Definition only_weight (W : float) : PatientUpdate.t :=
  PatientUpdate.make None None None None None (Some (Some W)).

(** A patient with another weight. *)
Definition with_weight (W : float) (p : Patient.t) : Patient.t :=
  Patient.make (Patient.id p) (Patient.name p) (Patient.city p)
    (Patient.age p) (Patient.height p) (Patient.gender p) W.

(** The value of [r] under [k] is a float that is not NaN. *)
Definition float_key (k : string) (r : raw) : Prop :=
  exists f, get_or_none k r = JFloat f /\ is_nan f = false.

(** The value of [a] under [k] is at most that of [b], both floats. *)
Definition key_le (k : string) (a b : raw) : Prop :=
  exists x y,
    get_or_none k a = JFloat x /\ get_or_none k b = JFloat y /\
    (x <=? y)%float = true.

(** ** Sample data *)

(** Conversions that accept nothing: enough where every value already has
    the exact type of its field. *)
Definition exact_types : Coercions :=
  {| lax_int := fun _ => None; lax_float := fun _ => None |}.

Definition john : Patient.t :=
  Patient.make "P001" "John Doe" "New York" 30 1.75 Male 70.

(** The record of [john] as [create_patiet] writes it. *)
Definition john_record : raw :=
  [("name", JStr "John Doe"); ("city", JStr "New York"); ("age", JInt 30);
   ("height", JFloat 1.75); ("gender", JStr "Male"); ("weight", JFloat 70);
   ("bmi", JFloat 22.857142857142858);
   ("bmi_category", JStr "Normal weight")].

(** The record of [john] with the primary fields only. *)
Definition bare_record : raw :=
  [("name", JStr "John Doe"); ("city", JStr "New York"); ("age", JInt 30);
   ("height", JFloat 1.75); ("gender", JStr "Male"); ("weight", JFloat 70)].

(** A record with a height whose square underflows. *)
Definition tiny_record : raw :=
  [("id", JStr "P002"); ("name", JStr "Ann"); ("city", JStr "Pune");
   ("age", JInt 41); ("height", JFloat 1e-200); ("gender", JStr "Female");
   ("weight", JFloat 70)].

(** ** The remaining endpoints and their vocabulary *)



Definition deleted : response :=
  JSONResponse [("Message", "Patient deleted successfully")] 200.

Definition not_found : exn := HTTPException 404 "Patient not found".

(** The record is the dump of some patient whose bmi is computed. *)
Definition dumped_form (r : raw) : Prop :=
  exists p b, Patient.bmi p = Ok b /\ r = dump_of p b.

(** The payload that sets all six fields, none to null. *)
Definition full_payload (n c : string) (a : Z) (h : float) (g : Gender)
  (w : float) : PatientUpdate.t :=
  PatientUpdate.make (Some (Some n)) (Some (Some c)) (Some (Some a))
    (Some (Some h)) (Some (Some g)) (Some (Some w)).

(** Every field of the payload is set, to a value or to null. *)
Definition all_set (u : PatientUpdate.t) : Prop :=
  PatientUpdate.name u <> None /\ PatientUpdate.city u <> None /\
  PatientUpdate.age u <> None /\ PatientUpdate.height u <> None /\
  PatientUpdate.gender u <> None /\ PatientUpdate.weight u <> None.

(** The store of [john] alone, and of [john] and a second patient. *)
Definition john_store : store := [("P001", john_record)].

Definition ann : Patient.t :=
  Patient.make "P002" "Ann" "Pune" 41 1.6 Female 80.

Definition ann_record : raw :=
  [("name", JStr "Ann"); ("city", JStr "Pune"); ("age", JInt 41);
   ("height", JFloat 1.6); ("gender", JStr "Female"); ("weight", JFloat 80);
   ("bmi", JFloat 31.249999999999993);
   ("bmi_category", JStr "Obesity")].

Definition two_store : store := [("P001", john_record); ("P002", ann_record)].

(** * Properties *)

Lemma SFcompare_frank (f g : spec_float) :
  SFcompare f g =
  match frank f, frank g with
  | Some a, Some b =>
      Some (match fst (fst a) ?= fst (fst b) with
            | Eq => match snd (fst a) ?= snd (fst b) with
                    | Eq => snd a ?= snd b
                    | c => c
                    end
            | c => c
            end)
  | _, _ => None
  end.
Proof.
  destruct f as [s| [|] | |[|] m e], g as [s'|[|] | |[|] m' e'];
    cbn; try reflexivity.
  rewrite Z.compare_opp, (Z.compare_antisym e e').
  destruct (e ?= e'); reflexivity.
Qed.

Lemma ltb_flt (x y : float) : (x <? y)%float = true <-> flt x y.
Proof.
  rewrite ltb_spec. unfold SFltb, flt, rk. rewrite SFcompare_frank.
  destruct (frank (Prim2SF x)) as [[[a1 a2] a3]|],
           (frank (Prim2SF y)) as [[[b1 b2] b3]|]; cbn;
    try (split; [discriminate | contradiction]).
  destruct (Z.compare_spec a1 b1), (Z.compare_spec a2 b2),
           (Z.compare_spec a3 b3); split; intros H'; try reflexivity;
             try discriminate; try lia.
Qed.

Lemma leb_fle (x y : float) : (x <=? y)%float = true <-> fle x y.
Proof.
  rewrite leb_spec. unfold SFleb, fle, rk, rank_le. rewrite SFcompare_frank.
  destruct (frank (Prim2SF x)) as [[[a1 a2] a3]|],
           (frank (Prim2SF y)) as [[[b1 b2] b3]|]; cbn;
    try (split; [discriminate | contradiction]).
  destruct (Z.compare_spec a1 b1), (Z.compare_spec a2 b2),
           (Z.compare_spec a3 b3); split; intros H'; try reflexivity;
    try discriminate; lia.
Qed.

Lemma ltb_not_flt (x y : float) : (x <? y)%float = false <-> ~ flt x y.
Proof.
  rewrite <- ltb_flt. destruct (x <? y)%float; split; congruence.
Qed.

Lemma leb_not_fle (x y : float) : (x <=? y)%float = false <-> ~ fle x y.
Proof.
  rewrite <- leb_fle. destruct (x <=? y)%float; split; congruence.
Qed.

Lemma is_nan_rk (x : float) : is_nan x = false <-> rk x <> None.
Proof.
  unfold is_nan, rk. rewrite eqb_spec. unfold SFeqb.
  rewrite SFcompare_frank.
  destruct (frank (Prim2SF x)) as [[[a1 a2] a3]|]; cbn.
  - rewrite !Z.compare_refl. cbn. split; congruence.
  - split; congruence.
Qed.

(** Turns the float comparisons of the context and of the goal into facts
    about ranks, computes the ranks of literals and hands the rest to
    [lia]. *)
Ltac float_order :=
  repeat match goal with
    | H : (_ <? _)%float = true |- _ => apply ltb_flt in H
    | H : (_ <=? _)%float = true |- _ => apply leb_fle in H
    | H : (_ <? _)%float = false |- _ => apply ltb_not_flt in H
    | H : (_ <=? _)%float = false |- _ => apply leb_not_fle in H
    | H : is_nan _ = false |- _ => apply is_nan_rk in H
    | |- (_ <? _)%float = true => apply ltb_flt
    | |- (_ <=? _)%float = true => apply leb_fle
    | |- (_ <? _)%float = false => apply ltb_not_flt
    | |- (_ <=? _)%float = false => apply leb_not_fle
    end;
  unfold flt, fle, rank_le, rank_lt in *;
  repeat match goal with
    | H : context [rk ?x] |- _ =>
        is_var x; destruct (rk x) as [[[? ?] ?]|]
    | |- context [rk ?x] =>
        is_var x; destruct (rk x) as [[[? ?] ?]|]
    end;
  try contradiction; try congruence;
  repeat match goal with
    | H : context [rk ?x] |- _ =>
        let r := eval vm_compute in (rk x) in
        change (rk x) with r in H
    | |- context [rk ?x] =>
        let r := eval vm_compute in (rk x) in
        change (rk x) with r
    end;
  cbn in *; try lia.

Lemma fle_of_not_flt (a b : float) :
  is_nan a = false -> is_nan b = false ->
  (b <? a)%float = false -> (a <=? b)%float = true.
Proof. intros Ha Hb H. float_order. Qed.

Lemma fle_of_flt (a b : float) :
  (a <? b)%float = true -> (a <=? b)%float = true.
Proof. intros H. float_order. Qed.

Lemma fle_trans (a b c : float) :
  (a <=? b)%float = true -> (b <=? c)%float = true -> (a <=? c)%float = true.
Proof. intros H1 H2. float_order. Qed.

(** ** The computed fields *)

(** C2: [compute_bmi_category] is the five-way classification: below 18.5
    "Underweight"; from 18.5 to below 24.9 "Normal weight"; from 25 to
    below 29.9 "Overweight"; every other value "Obesity", among them the
    values from 24.9 to below 25 and those from 29.9 on; and "Unknown" for
    an absent bmi. *)
Theorem C2_bmi_category_five_way (b : float) :
  ((b <? 18.5)%float = true ->
   Patient.compute_bmi_category (Some b) = "Underweight") /\
  ((18.5 <=? b)%float = true -> (b <? 24.9)%float = true ->
   Patient.compute_bmi_category (Some b) = "Normal weight") /\
  ((25 <=? b)%float = true -> (b <? 29.9)%float = true ->
   Patient.compute_bmi_category (Some b) = "Overweight") /\
  ((b <? 18.5)%float = false ->
   ((18.5 <=? b)%float && (b <? 24.9)%float) = false ->
   ((25 <=? b)%float && (b <? 29.9)%float) = false ->
   Patient.compute_bmi_category (Some b) = "Obesity") /\
  ((24.9 <=? b)%float = true -> (b <? 25)%float = true ->
   Patient.compute_bmi_category (Some b) = "Obesity") /\
  ((29.9 <=? b)%float = true ->
   Patient.compute_bmi_category (Some b) = "Obesity") /\
  Patient.compute_bmi_category None = "Unknown".
Proof.
  unfold Patient.compute_bmi_category.
  repeat split.
  - intros ->. reflexivity.
  - intros H1 H2.
    assert ((b <? 18.5)%float = false) as -> by float_order.
    rewrite H1, H2. reflexivity.
  - intros H1 H2.
    assert ((b <? 18.5)%float = false) as -> by float_order.
    assert ((b <? 24.9)%float = false) as -> by float_order.
    rewrite H1, H2, andb_false_r. reflexivity.
  - intros -> -> ->. reflexivity.
  - intros H1 H2.
    assert ((b <? 18.5)%float = false) as -> by float_order.
    assert ((b <? 24.9)%float = false) as -> by float_order.
    assert ((25 <=? b)%float = false) as -> by float_order.
    rewrite andb_false_r. reflexivity.
  - intros H1.
    assert ((b <? 18.5)%float = false) as -> by float_order.
    assert ((b <? 24.9)%float = false) as -> by float_order.
    assert ((b <? 29.9)%float = false) as -> by float_order.
    rewrite !andb_false_r. reflexivity.
Qed.

(** The classification at 17, 22.857142857142858, 27, 24.95, 35 and NaN. *)
Lemma C2_bmi_category_five_way_witness :
  Patient.compute_bmi_category (Some 17%float) = "Underweight" /\
  Patient.compute_bmi_category (Some 22.857142857142858%float)
    = "Normal weight" /\
  Patient.compute_bmi_category (Some 27%float) = "Overweight" /\
  Patient.compute_bmi_category (Some nan) = "Obesity" /\
  Patient.compute_bmi_category (Some 24.95%float) = "Obesity" /\
  Patient.compute_bmi_category (Some 35%float) = "Obesity".
Proof.
  split; [ apply (proj1 (C2_bmi_category_five_way 17)); reflexivity | ].
  split.
  { destruct (C2_bmi_category_five_way 22.857142857142858)
      as (_ & H & _). apply H; reflexivity. }
  split.
  { destruct (C2_bmi_category_five_way 27) as (_ & _ & H & _).
    apply H; reflexivity. }
  split.
  { destruct (C2_bmi_category_five_way nan) as (_ & _ & _ & H & _).
    apply H; reflexivity. }
  split.
  { destruct (C2_bmi_category_five_way 24.95) as (_ & _ & _ & _ & H & _).
    apply H; reflexivity. }
  destruct (C2_bmi_category_five_way 35) as (_ & _ & _ & _ & _ & H & _).
  apply H; reflexivity.
Defined.

(** Where either field is zero the bmi is absent and the category is
    "Unknown". *)
Lemma compute_bmi_zero (h w : float) :
  float_truthy h = false \/ float_truthy w = false ->
  Patient.compute_bmi h w = Ok None /\
  Patient.compute_bmi_category None = "Unknown".
Proof.
  unfold Patient.compute_bmi. intros [-> | ->];
    rewrite ?andb_false_r; split; reflexivity.
Qed.

(** Where both fields are non-zero and the square of the height is
    neither an overflow nor zero, the bmi is the quotient. *)
Lemma compute_bmi_defined (h w h2 : float) :
  float_truthy h = true -> float_truthy w = true ->
  float_pow2 h = Ok h2 -> float_truthy h2 = true ->
  Patient.compute_bmi h w = Ok (Some (w / h2)%float).
Proof.
  unfold Patient.compute_bmi, float_div, float_truthy.
  intros -> -> -> H. cbn.
  destruct (h2 =? 0)%float; [discriminate | reflexivity].
Qed.

(** C3: at the height 1e-200 and the weight 70, both non-zero, the square
    of the height underflows to zero and [compute_bmi] raises
    [ZeroDivisionError] where the quotient was to be returned; at the
    height 1e200 the square overflows and it raises [OverflowError]. *)
Theorem C3_compute_bmi_raises :
  float_truthy 1e-200 = true /\ float_truthy 70 = true /\
  Patient.compute_bmi 1e-200 70 = Raise ZeroDivisionError /\
  float_truthy 1e200 = true /\
  Patient.compute_bmi 1e200 70 = Raise OverflowError.
Proof. repeat split; reflexivity. Qed.

(** ** Dictionaries *)

Lemma dict_get_set (V : Type) (k k' : string) (v : V) (d : dict V) :
  dict_get k (dict_set k' v d) =
  if String.eqb k k' then Some v else dict_get k d.
Proof.
  induction d as [|[k0 v0] t IH]; cbn.
  - reflexivity.
  - destruct (String.eqb_spec k' k0) as [->|Hne]; cbn.
    + destruct (String.eqb k k0); reflexivity.
    + rewrite IH. destruct (String.eqb_spec k k0) as [->|Hne'].
      * destruct (String.eqb_spec k0 k'); [congruence | reflexivity].
      * reflexivity.
Qed.

Lemma dict_get_set_same (V : Type) (k : string) (v : V) (d : dict V) :
  dict_get k (dict_set k v d) = Some v.
Proof. rewrite dict_get_set, String.eqb_refl. reflexivity. Qed.

Lemma dict_set_set (V : Type) (k : string) (v v' : V) (d : dict V) :
  dict_set k v (dict_set k v' d) = dict_set k v d.
Proof.
  induction d as [|[k0 v0] t IH]; cbn.
  - rewrite String.eqb_refl. reflexivity.
  - destruct (String.eqb k k0) eqn:E; cbn; rewrite E.
    + reflexivity.
    + rewrite IH. reflexivity.
Qed.

Lemma dict_set_get (V : Type) (k : string) (v : V) (d : dict V) :
  dict_get k d = Some v -> dict_set k v d = d.
Proof.
  induction d as [|[k0 v0] t IH]; cbn.
  - discriminate.
  - destruct (String.eqb k k0).
    + intros [= ->]. reflexivity.
    + intros H. rewrite (IH H). reflexivity.
Qed.

Lemma dict_in_get (V : Type) (k : string) (d : dict V) :
  dict_in k d = true <-> exists v, dict_get k d = Some v.
Proof.
  unfold dict_in. destruct (dict_get k d) as [v|].
  - split; [eauto | reflexivity].
  - split; [discriminate | intros [v [=]]].
Qed.

(** ** The merge loop *)

Lemma overlay_app (a b r : raw) :
  overlay (a ++ b)%list r = overlay b (overlay a r).
Proof. unfold overlay. apply fold_left_app. Qed.

Lemma overlay_entry (A : Type) (k : string) (inj : A -> jval)
  (f : option (option A)) (r : raw) :
  overlay (PatientUpdate.entry k inj f) r =
  match f with
  | None => r
  | Some None => dict_set k JNull r
  | Some (Some a) => dict_set k (inj a) r
  end.
Proof. destruct f as [[a|]|]; reflexivity. Qed.

Lemma get_overlay_entry (A : Type) (k k' : string) (inj : A -> jval)
  (f : option (option A)) (r : raw) :
  dict_get k (overlay (PatientUpdate.entry k' inj f) r) =
  if String.eqb k k' then
    match f with
    | None => dict_get k r
    | Some None => Some JNull
    | Some (Some a) => Some (inj a)
    end
  else dict_get k r.
Proof.
  rewrite overlay_entry.
  destruct f as [[a|]|]; rewrite ?dict_get_set;
    destruct (String.eqb k k'); reflexivity.
Qed.

Lemma get_overlay (u : PatientUpdate.t) (r : raw) (k : string) :
  dict_get k (overlay (PatientUpdate.model_dump_exclude_unset u) r)
  = merged_value u r k.
Proof.
  unfold PatientUpdate.model_dump_exclude_unset, merged_value.
  rewrite !overlay_app, !get_overlay_entry.
  destruct (String.eqb_spec k "weight") as [->|]; [reflexivity|].
  destruct (String.eqb_spec k "gender") as [->|]; [reflexivity|].
  destruct (String.eqb_spec k "height") as [->|]; [reflexivity|].
  destruct (String.eqb_spec k "age") as [->|]; [reflexivity|].
  destruct (String.eqb_spec k "city") as [->|]; [reflexivity|].
  destruct (String.eqb_spec k "name") as [->|]; reflexivity.
Qed.

(** ** Validation and dump of a Patient *)

Section Validation.

Context `{Coercions}.

Lemma validate_ok_iff (kwargs : raw) (p : Patient.t) :
  Patient.validate kwargs = Ok p <->
  field validate_str "id" kwargs = Some (Patient.id p) /\
  field validate_str "name" kwargs = Some (Patient.name p) /\
  field validate_str "city" kwargs = Some (Patient.city p) /\
  field validate_int "age" kwargs = Some (Patient.age p) /\
  field validate_float "height" kwargs = Some (Patient.height p) /\
  field validate_gender "gender" kwargs = Some (Patient.gender p) /\
  field validate_float "weight" kwargs = Some (Patient.weight p).
Proof.
  unfold Patient.validate.
  destruct (field validate_str "id" kwargs),
    (field validate_str "name" kwargs),
    (field validate_str "city" kwargs),
    (field validate_int "age" kwargs),
    (field validate_float "height" kwargs),
    (field validate_gender "gender" kwargs),
    (field validate_float "weight" kwargs);
    (split;
     [ intros [= <-]; repeat split; reflexivity
     | intros (H1 & H2 & H3 & H4 & H5 & H6 & H7);
       try discriminate; destruct p; cbn in *; congruence ]).
Qed.

(** A field that is missing or does not validate makes the validation
    raise, and is named in the error. *)
Lemma validate_field_error (kwargs : raw) (k : string) :
  (k = "id" /\ field validate_str k kwargs = None) \/
  (k = "name" /\ field validate_str k kwargs = None) \/
  (k = "city" /\ field validate_str k kwargs = None) \/
  (k = "age" /\ field validate_int k kwargs = None) \/
  (k = "height" /\ field validate_float k kwargs = None) \/
  (k = "gender" /\ field validate_gender k kwargs = None) \/
  (k = "weight" /\ field validate_float k kwargs = None) ->
  exists errors,
    Patient.validate kwargs = Raise (ValidationError errors) /\
    In k errors.
Proof.
  intros Hk. unfold Patient.validate.
  decompose [or and] Hk; subst;
    match goal with E : field _ _ _ = None |- _ => rewrite E end;
    repeat match goal with
      | |- context [field ?v ?k kwargs] => destruct (field v k kwargs)
      end;
    (eexists; split; [reflexivity | cbn; tauto]).
Qed.

Lemma field_with_id (A : Type) (validate : jval -> option A)
  (k i : string) (r : raw) :
  k <> "id" ->
  field validate k (dict_set "id" (JStr i) r) = field validate k r.
Proof.
  intros Hk. unfold field. rewrite dict_get_set.
  destruct (String.eqb_spec k "id"); [contradiction | reflexivity].
Qed.

Lemma field_id_with_id (i : string) (r : raw) :
  field validate_str "id" (dict_set "id" (JStr i) r) = Some i.
Proof. unfold field. rewrite dict_get_set_same. reflexivity. Qed.

(** The id of a record validated after the id was force-set. *)
Lemma validate_with_id (i : string) (r : raw) (p : Patient.t) :
  Patient.validate (dict_set "id" (JStr i) r) = Ok p -> Patient.id p = i.
Proof.
  intros Hv. apply validate_ok_iff in Hv. destruct Hv as (Hid & _).
  rewrite field_id_with_id in Hid. congruence.
Qed.

End Validation.

Lemma validate_gender_str (g : Gender) :
  validate_gender (JStr (gender_str g)) = Some g.
Proof. destruct g; reflexivity. Qed.

Lemma model_dump_eq (p : Patient.t) :
  Patient.model_dump ["id"] p =
  match Patient.bmi p with
  | Ok b => Ok (dump_of p b)
  | Raise e => Raise e
  end.
Proof.
  unfold Patient.model_dump, Patient.bmi_category.
  destruct (Patient.bmi p) as [b|e]; reflexivity.
Qed.

Lemma model_dump_ok (p : Patient.t) (r : raw) :
  Patient.model_dump ["id"] p = Ok r ->
  exists b, Patient.bmi p = Ok b /\ r = dump_of p b.
Proof.
  rewrite model_dump_eq. destruct (Patient.bmi p) as [b|e].
  - intros [= <-]. eauto.
  - discriminate.
Qed.

(** A dump, with the id set again, validates to the patient it came
    from, under any id it is given. *)
Lemma validate_dump `{Coercions} (p : Patient.t) (b : option float)
  (i : string) :
  Patient.validate (dict_set "id" (JStr i) (dump_of p b)) =
  Ok (Patient.make i (Patient.name p) (Patient.city p) (Patient.age p)
        (Patient.height p) (Patient.gender p) (Patient.weight p)).
Proof.
  apply validate_ok_iff. unfold field; cbn.
  destruct (Patient.gender p); repeat split.
Qed.

(** ** The endpoints, step by step *)

Lemma create_patiet_run (p : Patient.t) (data : store) :
  run (create_patiet p) data =
  if dict_in (Patient.id p) data then
    (Raise (HTTPException 400 "Patient ID already exists"),
     {| file := data; log := [Load] |})
  else
    match Patient.model_dump ["id"] p with
    | Raise e => (Raise e, {| file := data; log := [Load] |})
    | Ok r =>
        (Ok created,
         {| file := dict_set (Patient.id p) r data;
            log := [Load; Save (dict_set (Patient.id p) r data)] |})
    end.
Proof.
  unfold run, create_patiet, bind, get_patient_data, lift,
    save_patient_data, ret, raise; cbn.
  destruct (dict_in (Patient.id p) data); [reflexivity|].
  destruct (Patient.model_dump ["id"] p); reflexivity.
Qed.

Lemma update_patient_run `{Coercions} (patient_id : string)
  (u : PatientUpdate.t) (data : store) :
  run (update_patient patient_id u) data =
  match dict_get patient_id data with
  | None =>
      (Raise (HTTPException 404 "Patient not found"),
       {| file := data; log := [Load] |})
  | Some r =>
      match Patient.validate (merged patient_id u r) with
      | Raise e => (Raise e, {| file := data; log := [Load] |})
      | Ok p =>
          match Patient.model_dump ["id"] p with
          | Raise e => (Raise e, {| file := data; log := [Load] |})
          | Ok r' =>
              (Ok updated,
               {| file := dict_set patient_id r' data;
                  log := [Load; Save (dict_set patient_id r' data)] |})
          end
      end
  end.
Proof.
  unfold run, update_patient, bind, get_patient_data, lift,
    save_patient_data, ret, raise, merged; cbn.
  destruct (dict_get patient_id data) as [r|]; [|reflexivity].
  destruct (Patient.validate _) as [p|e]; [|reflexivity].
  destruct (Patient.model_dump ["id"] p) as [r'|e]; [|reflexivity].
  rewrite dict_set_set. reflexivity.
Qed.

(** ** What the store holds *)

Lemma dump_of_derived (p : Patient.t) (b : option float) :
  Patient.bmi p = Ok b ->
  dict_keys (dump_of p b) = dumped_fields /\ derived_from_stored (dump_of p b).
Proof.
  intros Hb. split; [reflexivity|].
  exists (Patient.height p), (Patient.weight p), b.
  repeat split. exact Hb.
Qed.

(** C1, as the code has it: the record that a create or an update
    persists has the keys name, city, age, height, gender, weight, bmi and
    bmi_category, in this order (the id alone is left out), and its bmi
    and bmi_category are the ones computed from its height and weight. *)
Theorem C1_persisted_record_keeps_derived_fields :
  (forall (p : Patient.t) (data : store) (resp : response) (w' : world),
      run (create_patiet p) data = (Ok resp, w') ->
      exists r,
        dict_get (Patient.id p) (file w') = Some r /\
        dict_keys r = dumped_fields /\ derived_from_stored r) /\
  (forall (c : Coercions) (patient_id : string) (u : PatientUpdate.t)
          (data : store) (resp : response) (w' : world),
      run (update_patient patient_id u) data = (Ok resp, w') ->
      exists r,
        dict_get patient_id (file w') = Some r /\
        dict_keys r = dumped_fields /\ derived_from_stored r).
Proof.
  split.
  - intros p data resp w'. rewrite create_patiet_run.
    destruct (dict_in (Patient.id p) data); [discriminate|].
    destruct (Patient.model_dump ["id"] p) as [r|e] eqn:Hd; [|discriminate].
    intros [= _ <-]. cbn.
    apply model_dump_ok in Hd. destruct Hd as (b & Hb & ->).
    exists (dump_of p b). split; [apply dict_get_set_same|].
    now apply dump_of_derived.
  - intros c patient_id u data resp w'. rewrite update_patient_run.
    destruct (dict_get patient_id data) as [r0|]; [|discriminate].
    destruct (Patient.validate _) as [p|e]; [|discriminate].
    destruct (Patient.model_dump ["id"] p) as [r|e] eqn:Hd; [|discriminate].
    intros [= _ <-]. cbn.
    apply model_dump_ok in Hd. destruct Hd as (b & Hb & ->).
    exists (dump_of p b). split; [apply dict_get_set_same|].
    now apply dump_of_derived.
Qed.

(** The record persisted by creating [john] in the empty store, and by a
    weight update of it. *)
Lemma C1_persisted_record_keeps_derived_fields_witness :
  (exists r,
      dict_get "P001" (file (snd (run (create_patiet john) []))) = Some r /\
      dict_keys r = dumped_fields /\ derived_from_stored r) /\
  (exists r,
      dict_get "P001"
        (file (snd (run (@update_patient exact_types "P001" (only_weight 80))
                      [("P001", john_record)]))) = Some r /\
      dict_keys r = dumped_fields /\ derived_from_stored r).
Proof.
  split.
  - apply (proj1 C1_persisted_record_keeps_derived_fields
             john [] created). reflexivity.
  - apply (proj2 C1_persisted_record_keeps_derived_fields
             exact_types "P001" (only_weight 80) [("P001", john_record)]
             updated).
    reflexivity.
Defined.

(** C1, as stated, fails: the record persisted by creating [john] in the
    empty store holds bmi and bmi_category, so its keys are not the
    primary fields only. *)
Lemma C1_counterexample :
  exists r,
    dict_get "P001" (file (snd (run (create_patiet john) []))) = Some r /\
    dict_get "bmi" r = Some (JFloat 22.857142857142858) /\
    dict_get "bmi_category" r = Some (JStr "Normal weight") /\
    dict_keys r <> primary_fields.
Proof.
  exists john_record. repeat split; try reflexivity. discriminate.
Qed.

(** ** Failing operations *)

(** C7: a create whose id is in the store raises the 400 "Patient ID
    already exists" and an update whose merged record fails validation
    raises the validation error (an invalid gender is such a failure); in
    both cases the store file is as it was and only a load was performed.
    No failing create or update writes the store. *)
Theorem C7_failures_leave_store_unmodified :
  (forall (p : Patient.t) (data : store),
      dict_in (Patient.id p) data = true ->
      run (create_patiet p) data =
      (Raise (HTTPException 400 "Patient ID already exists"),
       {| file := data; log := [Load] |})) /\
  (forall (c : Coercions) (patient_id : string) (u : PatientUpdate.t)
          (data : store) (r : raw) (errors : list string),
      dict_get patient_id data = Some r ->
      Patient.validate (merged patient_id u r)
      = Raise (ValidationError errors) ->
      run (update_patient patient_id u) data =
      (Raise (ValidationError errors), {| file := data; log := [Load] |})) /\
  (forall (c : Coercions) (patient_id : string) (u : PatientUpdate.t)
          (data : store) (r : raw),
      dict_get patient_id data = Some r ->
      field validate_gender "gender" (merged patient_id u r) = None ->
      exists errors,
        In "gender" errors /\
        run (update_patient patient_id u) data =
        (Raise (ValidationError errors), {| file := data; log := [Load] |})) /\
  (forall (p : Patient.t) (data : store) (e : exn) (w' : world),
      run (create_patiet p) data = (Raise e, w') ->
      w' = {| file := data; log := [Load] |}) /\
  (forall (c : Coercions) (patient_id : string) (u : PatientUpdate.t)
          (data : store) (e : exn) (w' : world),
      run (update_patient patient_id u) data = (Raise e, w') ->
      w' = {| file := data; log := [Load] |}).
Proof.
  repeat apply conj.
  - intros p data Hin. rewrite create_patiet_run, Hin. reflexivity.
  - intros c patient_id u data r errors Hr Hv.
    rewrite update_patient_run, Hr, Hv. reflexivity.
  - intros c patient_id u data r Hr Hg.
    destruct (@validate_field_error c (merged patient_id u r) "gender")
      as (errors & Hv & Hin); [tauto|].
    exists errors. split; [exact Hin|].
    rewrite update_patient_run, Hr, Hv. reflexivity.
  - intros p data e w'. rewrite create_patiet_run.
    destruct (dict_in (Patient.id p) data); [now intros [= _ <-]|].
    destruct (Patient.model_dump ["id"] p); [discriminate|].
    now intros [= _ <-].
  - intros c patient_id u data e w'. rewrite update_patient_run.
    destruct (dict_get patient_id data); [|now intros [= _ <-]].
    destruct (Patient.validate _) as [p|]; [|now intros [= _ <-]].
    destruct (Patient.model_dump ["id"] p); [discriminate|].
    now intros [= _ <-].
Qed.

(** A second create of [john], and an update of a stored record whose
    gender is "Unknown". *)
Lemma C7_failures_leave_store_unmodified_witness :
  run (create_patiet john) [("P001", john_record)] =
  (Raise (HTTPException 400 "Patient ID already exists"),
   {| file := [("P001", john_record)]; log := [Load] |}) /\
  (exists errors,
      In "gender" errors /\
      run (@update_patient exact_types "P001" (only_weight 80))
        [("P001", dict_set "gender" (JStr "Unknown") john_record)] =
      (Raise (ValidationError errors),
       {| file := [("P001", dict_set "gender" (JStr "Unknown") john_record)];
          log := [Load] |})).
Proof.
  split.
  - apply (proj1 C7_failures_leave_store_unmodified). reflexivity.
  - destruct C7_failures_leave_store_unmodified as (_ & _ & H & _).
    apply (H exact_types "P001" (only_weight 80) _
             (dict_set "gender" (JStr "Unknown") john_record));
      reflexivity.
Defined.

(** ** The merge *)

Section Merge.

Context `{Coercions}.

(** The fields of the merged mapping, by the value the merge leaves
    under each key. *)
Lemma field_merged (A : Type) (validate : jval -> option A) (k : string)
  (patient_id : string) (u : PatientUpdate.t) (r : raw) :
  k <> "id" ->
  field validate k (merged patient_id u r) =
  match merged_value u r k with
  | Some v => validate v
  | None => None
  end.
Proof.
  intros Hk. unfold merged. rewrite field_with_id by exact Hk.
  unfold field. rewrite get_overlay. reflexivity.
Qed.

Lemma merged_unset (patient_id : string) (r : raw) :
  merged patient_id PatientUpdate.unset r
  = dict_set "id" (JStr patient_id) r.
Proof. reflexivity. Qed.

Lemma merged_only_weight (patient_id : string) (W : float) (r : raw)
  (p : Patient.t) :
  Patient.validate (dict_set "id" (JStr patient_id) r) = Ok p ->
  Patient.validate (merged patient_id (only_weight W) r)
  = Ok (with_weight W p).
Proof.
  intros Hv. apply validate_ok_iff in Hv.
  destruct Hv as (H1 & H2 & H3 & H4 & H5 & H6 & _).
  rewrite field_with_id in H2, H3, H4, H5, H6 by discriminate.
  rewrite field_id_with_id in H1.
  apply validate_ok_iff. unfold merged at 1. rewrite field_id_with_id.
  rewrite !field_merged by discriminate. cbn.
  unfold field in H2, H3, H4, H5, H6.
  repeat split; assumption.
Qed.

End Merge.

(** C5: merging a payload that sets only the weight, to [W], leaves every
    key of the mapping other than "weight" as it was after the id was
    force-set to the id of the path; for a stored record that validates,
    the merged mapping validates to a record with the id of the path, the
    name, city, age, height and gender of the record before, and the
    weight [W], and the update persists the dump of that record, or raises
    and leaves the store as it was.  Against a record stored in dumped
    form, the new dump differs at the keys weight, bmi and bmi_category
    only.  A key "id" in the request body is not a field of the payload
    and is ignored. *)
Theorem C5_weight_update_frame (c : Coercions) (data : store)
  (patient_id : string) (r : raw) (W : float) :
  dict_get patient_id data = Some r ->
  dict_get "id" (merged patient_id (only_weight W) r)
  = Some (JStr patient_id) /\
  dict_get "weight" (merged patient_id (only_weight W) r)
  = Some (JFloat W) /\
  (forall k, k <> "weight" ->
             dict_get k (merged patient_id (only_weight W) r)
             = dict_get k (dict_set "id" (JStr patient_id) r)) /\
  (forall p,
      Patient.validate (dict_set "id" (JStr patient_id) r) = Ok p ->
      exists p',
        Patient.validate (merged patient_id (only_weight W) r) = Ok p' /\
        Patient.id p' = patient_id /\ Patient.id p' = Patient.id p /\
        Patient.name p' = Patient.name p /\
        Patient.city p' = Patient.city p /\
        Patient.age p' = Patient.age p /\
        Patient.height p' = Patient.height p /\
        Patient.gender p' = Patient.gender p /\ Patient.weight p' = W /\
        run (update_patient patient_id (only_weight W)) data =
        match Patient.model_dump ["id"] p' with
        | Ok r' =>
            (Ok updated,
             {| file := dict_set patient_id r' data;
                log := [Load; Save (dict_set patient_id r' data)] |})
        | Raise e => (Raise e, {| file := data; log := [Load] |})
        end /\
        (forall r', Patient.model_dump ["id"] p = Ok r ->
                    Patient.model_dump ["id"] p' = Ok r' ->
                    forall k, k <> "weight" -> k <> "bmi" ->
                              k <> "bmi_category" ->
                              dict_get k r' = dict_get k r)) /\
  (forall (body : raw) (x : jval),
      PatientUpdate.validate (("id", x) :: body)
      = PatientUpdate.validate body).
Proof.
  intros Hr.
  assert (forall k, dict_get k (merged patient_id (only_weight W) r) =
                    if String.eqb k "id" then Some (JStr patient_id)
                    else if String.eqb k "weight" then Some (JFloat W)
                         else dict_get k r) as Hm.
  { intros k. unfold merged. cbn. rewrite !dict_get_set. reflexivity. }
  split; [rewrite Hm; reflexivity|].
  split; [rewrite Hm; reflexivity|].
  split.
  { intros k Hk. rewrite Hm, dict_get_set.
    destruct (String.eqb k "id"); [reflexivity|].
    destruct (String.eqb_spec k "weight"); [contradiction | reflexivity]. }
  split; [|reflexivity].
  intros p Hv. exists (with_weight W p).
  pose proof (merged_only_weight patient_id W r Hv) as Hw.
  pose proof (validate_with_id _ _ Hv) as Hid.
  repeat apply conj; try reflexivity; try assumption.
  - rewrite update_patient_run, Hr, Hw.
    destruct (Patient.model_dump ["id"] (with_weight W p)); reflexivity.
  - intros r' Hd Hd' k Hkw Hkb Hkc.
    apply model_dump_ok in Hd. destruct Hd as (b & _ & ->).
    apply model_dump_ok in Hd'. destruct Hd' as (b' & _ & ->).
    unfold dump_of, with_weight. cbn.
    repeat match goal with
      | |- context [String.eqb k ?s] =>
          destruct (String.eqb_spec k s); [try reflexivity; congruence|]
      end.
    reflexivity.
Qed.

(** The weight of [john] updated to 80. *)
Lemma C5_weight_update_frame_witness :
  dict_get "id" (merged "P001" (only_weight 80) john_record)
  = Some (JStr "P001") /\
  dict_get "weight" (merged "P001" (only_weight 80) john_record)
  = Some (JFloat 80) /\
  (forall k, k <> "weight" ->
             dict_get k (merged "P001" (only_weight 80) john_record)
             = dict_get k (dict_set "id" (JStr "P001") john_record)) /\
  (forall p,
      @Patient.validate exact_types (dict_set "id" (JStr "P001") john_record)
      = Ok p ->
      exists p',
        @Patient.validate exact_types
          (merged "P001" (only_weight 80) john_record) = Ok p' /\
        Patient.id p' = "P001" /\ Patient.id p' = Patient.id p /\
        Patient.name p' = Patient.name p /\
        Patient.city p' = Patient.city p /\
        Patient.age p' = Patient.age p /\
        Patient.height p' = Patient.height p /\
        Patient.gender p' = Patient.gender p /\
        Patient.weight p' = 80%float /\
        run (@update_patient exact_types "P001" (only_weight 80))
          [("P001", john_record)] =
        match Patient.model_dump ["id"] p' with
        | Ok r' =>
            (Ok updated,
             {| file := dict_set "P001" r' [("P001", john_record)];
                log := [Load;
                        Save (dict_set "P001" r' [("P001", john_record)])] |})
        | Raise e =>
            (Raise e, {| file := [("P001", john_record)]; log := [Load] |})
        end /\
        (forall r', Patient.model_dump ["id"] p = Ok john_record ->
                    Patient.model_dump ["id"] p' = Ok r' ->
                    forall k, k <> "weight" -> k <> "bmi" ->
                              k <> "bmi_category" ->
                              dict_get k r' = dict_get k john_record)) /\
  (forall (body : raw) (x : jval),
      @PatientUpdate.validate exact_types (("id", x) :: body)
      = @PatientUpdate.validate exact_types body).
Proof.
  apply (@C5_weight_update_frame exact_types [("P001", john_record)]
           "P001" john_record 80). reflexivity.
Defined.

(** C8, as the code has it: for a stored record that validates, an update
    with no field set persists a record that validates to the same
    Patient, so with the same bmi and bmi_category; and where the stored
    record is in the form the dump writes, the update succeeds and the
    store it saves is the one it loaded. *)
Theorem C8_empty_update (c : Coercions) (data : store)
  (patient_id : string) (r : raw) (p : Patient.t) :
  dict_get patient_id data = Some r ->
  Patient.validate (dict_set "id" (JStr patient_id) r) = Ok p ->
  (Patient.model_dump ["id"] p = Ok r ->
   run (update_patient patient_id PatientUpdate.unset) data =
   (Ok updated, {| file := data; log := [Load; Save data] |})) /\
  (forall (resp : response) (w' : world),
      run (update_patient patient_id PatientUpdate.unset) data
      = (Ok resp, w') ->
      exists r',
        dict_get patient_id (file w') = Some r' /\
        Patient.model_dump ["id"] p = Ok r' /\
        Patient.validate (dict_set "id" (JStr patient_id) r') = Ok p).
Proof.
  intros Hr Hv. split.
  - intros Hd. rewrite update_patient_run, Hr, merged_unset, Hv, Hd.
    rewrite (dict_set_get _ _ Hr). reflexivity.
  - intros resp w'. rewrite update_patient_run, Hr, merged_unset, Hv.
    destruct (Patient.model_dump ["id"] p) as [r'|e] eqn:Hd; [|discriminate].
    intros [= _ <-]. cbn. exists r'.
    split; [apply dict_get_set_same|]. split; [reflexivity|].
    apply model_dump_ok in Hd. destruct Hd as (b & _ & ->).
    rewrite validate_dump. rewrite <- (validate_with_id _ _ Hv).
    destruct p; reflexivity.
Qed.

(** The empty update of [john], stored as create writes it. *)
Lemma C8_empty_update_witness :
  (Patient.model_dump ["id"] john = Ok john_record ->
   run (@update_patient exact_types "P001" PatientUpdate.unset)
     [("P001", john_record)] =
   (Ok updated,
    {| file := [("P001", john_record)];
       log := [Load; Save [("P001", john_record)]] |})) /\
  (forall (resp : response) (w' : world),
      run (@update_patient exact_types "P001" PatientUpdate.unset)
        [("P001", john_record)] = (Ok resp, w') ->
      exists r',
        dict_get "P001" (file w') = Some r' /\
        Patient.model_dump ["id"] john = Ok r' /\
        @Patient.validate exact_types (dict_set "id" (JStr "P001") r')
        = Ok john).
Proof.
  apply (@C8_empty_update exact_types [("P001", john_record)] "P001"
           john_record john); reflexivity.
Defined.

(** C8, as stated, fails: a stored record of [john] with the six primary
    fields validates, and the update with no field set succeeds and
    persists another mapping, which has bmi and bmi_category as well. *)
Lemma C8_counterexample :
  exists data r,
    dict_get "P001" data = Some r /\
    forall c : Coercions,
      @Patient.validate c (dict_set "id" (JStr "P001") r) = Ok john /\
      exists w',
        run (@update_patient c "P001" PatientUpdate.unset) data
        = (Ok updated, w') /\
        dict_get "P001" (file w') = Some john_record /\
        file w' <> data.
Proof.
  exists [("P001", bare_record)], bare_record.
  split; [reflexivity|]. intros c. split; [reflexivity|].
  exists {| file := [("P001", john_record)];
            log := [Load; Save [("P001", john_record)]] |}.
  split; [reflexivity|]. split; [reflexivity|]. discriminate.
Qed.

(** ** Validation after a dump *)

(** C9, as the code has it: for a raw record that validates to a Patient
    whose dump returns, the dump (which leaves the id out and holds bmi
    and bmi_category) validates, once the id is set in it again, to the
    same Patient; and a Patient persisted by a create into a store without
    its id is validated by an update, from what the store holds, as the
    same Patient. *)
Theorem C9_validate_dump_roundtrip (c : Coercions) (kwargs : raw)
  (p : Patient.t) (d : raw) :
  Patient.validate kwargs = Ok p ->
  Patient.model_dump ["id"] p = Ok d ->
  dict_keys d = dumped_fields /\
  Patient.validate (dict_set "id" (JStr (Patient.id p)) d) = Ok p /\
  (forall data : store,
      dict_in (Patient.id p) data = false ->
      exists w',
        run (create_patiet p) data = (Ok created, w') /\
        dict_get (Patient.id p) (file w') = Some d /\
        Patient.validate (merged (Patient.id p) PatientUpdate.unset d)
        = Ok p).
Proof.
  intros _ Hd.
  pose proof Hd as Hd'. apply model_dump_ok in Hd'.
  destruct Hd' as (b & _ & ->).
  assert (Patient.validate
            (dict_set "id" (JStr (Patient.id p)) (dump_of p b)) = Ok p)
    as Hrt by (rewrite validate_dump; destruct p; reflexivity).
  repeat apply conj.
  - reflexivity.
  - exact Hrt.
  - intros data Hin. rewrite create_patiet_run, Hin, Hd.
    eexists. split; [reflexivity|]. cbn.
    split; [apply dict_get_set_same | exact Hrt].
Qed.

(** The round trip of [john]. *)
Lemma C9_validate_dump_roundtrip_witness :
  dict_keys john_record = dumped_fields /\
  @Patient.validate exact_types (dict_set "id" (JStr "P001") john_record)
  = Ok john /\
  (forall data : store,
      dict_in "P001" data = false ->
      exists w',
        run (create_patiet john) data = (Ok created, w') /\
        dict_get "P001" (file w') = Some john_record /\
        @Patient.validate exact_types
          (merged "P001" PatientUpdate.unset john_record) = Ok john).
Proof.
  apply (@C9_validate_dump_roundtrip exact_types
           (dict_set "id" (JStr "P001") bare_record) john john_record);
    reflexivity.
Defined.

(** C9, as stated, fails: the dump of the validated [john] holds bmi and
    bmi_category and has no id, and validating it as it is raises the
    validation error of the missing id. *)
Lemma C9_counterexample :
  exists kwargs d,
    Patient.model_dump ["id"] john = Ok d /\
    dict_get "bmi" d = Some (JFloat 22.857142857142858) /\
    dict_get "id" d = None /\
    forall c : Coercions,
      @Patient.validate c kwargs = Ok john /\
      @Patient.validate c d = Raise (ValidationError ["id"]).
Proof.
  exists (dict_set "id" (JStr "P001") bare_record), john_record.
  repeat split; reflexivity.
Qed.

(** A record that validates and whose dump raises: its height is not
    zero and the square of its height is. *)
Lemma validated_dump_raises (c : Coercions) :
  exists p,
    Patient.validate tiny_record = Ok p /\
    Patient.model_dump ["id"] p = Raise ZeroDivisionError.
Proof. eexists. split; reflexivity. Qed.

(** ** Explicit nulls and required fields *)

(** C10: a payload field set to an explicit null is written over the
    stored value by the merge, the validation of the merged record raises
    a validation error that names the field, whichever of the six fields
    it is, and the update leaves the store file as it was, only a load
    performed. *)
Theorem C10_explicit_null_rejected (c : Coercions) (data : store)
  (patient_id : string) (r : raw) (u : PatientUpdate.t) (f : string) :
  dict_get patient_id data = Some r ->
  explicit_null f u ->
  In f primary_fields /\
  dict_get f (overlay (PatientUpdate.model_dump_exclude_unset u) r)
  = Some JNull /\
  exists errors,
    In f errors /\
    run (update_patient patient_id u) data =
    (Raise (ValidationError errors), {| file := data; log := [Load] |}).
Proof.
  intros Hr Hn.
  assert (In f primary_fields /\ merged_value u r f = Some JNull) as [Hf Hm].
  { unfold explicit_null in Hn. unfold merged_value.
    decompose [or and] Hn; subst; cbn;
      match goal with E : _ = Some None |- _ => rewrite E end;
      (split; [tauto | reflexivity]). }
  split; [exact Hf|]. split; [rewrite get_overlay; exact Hm|].
  destruct (@validate_field_error c (merged patient_id u r) f)
    as (errors & Hv & Hin).
  { cbn in Hf.
    decompose [or] Hf; subst; try contradiction;
      rewrite !field_merged by discriminate; rewrite !Hm; cbn; tauto. }
  exists errors. split; [exact Hin|].
  rewrite update_patient_run, Hr, Hv. reflexivity.
Qed.

(** A null weight for [john]. *)
Lemma C10_explicit_null_rejected_witness :
  In "weight" primary_fields /\
  dict_get "weight"
    (overlay
       (PatientUpdate.model_dump_exclude_unset
          (PatientUpdate.make None None None None None (Some None)))
       john_record) = Some JNull /\
  exists errors,
    In "weight" errors /\
    run (@update_patient exact_types "P001"
           (PatientUpdate.make None None None None None (Some None)))
      [("P001", john_record)] =
    (Raise (ValidationError errors),
     {| file := [("P001", john_record)]; log := [Load] |}).
Proof.
  apply (@C10_explicit_null_rejected exact_types [("P001", john_record)]
           "P001" john_record).
  - reflexivity.
  - unfold explicit_null. cbn. tauto.
Defined.

(** The merge writes the fields the payload sets and keeps the others. *)
Lemma merge_overwrites_set_fields (u : PatientUpdate.t) (r : raw)
  (k : string) :
  dict_get k (overlay (PatientUpdate.model_dump_exclude_unset u) r)
  = merged_value u r k.
Proof. apply get_overlay. Qed.

(** C4: a request body that supplies the weight only is rejected by the
    validation of the payload, with the five other fields reported
    missing, and so is the empty body; every payload that validates has
    all six fields set. *)
Theorem C4_partial_payload_rejected (c : Coercions) :
  PatientUpdate.validate [("weight", JFloat 80)]
  = Raise (ValidationError ["name"; "city"; "age"; "height"; "gender"]) /\
  PatientUpdate.validate [] = Raise (ValidationError primary_fields) /\
  (forall (body : raw) (u : PatientUpdate.t),
      PatientUpdate.validate body = Ok u ->
      PatientUpdate.name u <> None /\ PatientUpdate.city u <> None /\
      PatientUpdate.age u <> None /\ PatientUpdate.height u <> None /\
      PatientUpdate.gender u <> None /\ PatientUpdate.weight u <> None).
Proof.
  split; [reflexivity|]. split; [reflexivity|].
  intros body u. unfold PatientUpdate.validate.
  repeat match goal with
    | |- context [field ?v ?k body] => destruct (field v k body)
    end; try discriminate.
  intros [= <-]. cbn. repeat split; discriminate.
Qed.

(** ** Sorting *)

Lemma existsb_eqb_In (s : string) (l : list string) :
  existsb (String.eqb s) l = true <-> In s l.
Proof.
  rewrite existsb_exists. split.
  - intros (x & Hx & E). apply String.eqb_eq in E. congruence.
  - intros Hin. exists s. split; [exact Hin | apply String.eqb_refl].
Qed.

Lemma StronglySorted_snoc (A : Type) (R : A -> A -> Prop) (l : list A)
  (a : A) :
  StronglySorted R l -> Forall (fun x => R x a) l ->
  StronglySorted R (l ++ [a])%list.
Proof.
  induction 1 as [|x l Hs IH Hx]; intros Ha; cbn.
  - constructor; constructor.
  - inversion Ha; subst. constructor.
    + apply IH. assumption.
    + apply Forall_app. split; [assumption | constructor; auto].
Qed.

Lemma StronglySorted_rev (A : Type) (R : A -> A -> Prop) (l : list A) :
  StronglySorted R l -> StronglySorted (fun a b => R b a) (rev l).
Proof.
  induction 1 as [|x l Hs IH Hx]; cbn.
  - constructor.
  - apply StronglySorted_snoc; [exact IH|].
    apply Forall_rev. exact Hx.
Qed.

Section SortByKey.

Variable k : string.

Let key : raw -> jval := get_or_none k.

Lemma insert_perm (x : raw) (l l' : list raw) :
  insert key x l = Ok l' -> Permutation (x :: l) l'.
Proof.
  revert l'. induction l as [|y t IH]; cbn; intros l'.
  - intros [= <-]. apply Permutation_refl.
  - destruct (py_lt (key y) (key x)) as [[|]|e]; cbn; try discriminate.
    + destruct (insert key x t) as [t'|e]; cbn; [|discriminate].
      intros [= <-]. rewrite perm_swap. constructor. now apply IH.
    + intros [= <-]. apply Permutation_refl.
Qed.

Lemma stable_sort_perm (l l' : list raw) :
  stable_sort key l = Ok l' -> Permutation l l'.
Proof.
  revert l'. induction l as [|x t IH]; cbn; intros l'.
  - intros [= <-]. constructor.
  - destruct (stable_sort key t) as [s|e]; cbn; [|discriminate].
    intros Hi. apply insert_perm in Hi.
    rewrite <- Hi. constructor. now apply IH.
Qed.

Lemma insert_sorted (x : raw) (l : list raw) :
  float_key k x -> Forall (float_key k) l ->
  StronglySorted (key_le k) l ->
  exists l', insert key x l = Ok l' /\ StronglySorted (key_le k) l'.
Proof.
  intros (fx & Hx & Nx) Hl Hs.
  induction Hs as [|y t Hs IH Hy]; cbn.
  - eexists. split; [reflexivity|]. constructor; constructor.
  - inversion Hl as [|? ? (fy & Hy' & Ny) Ht]; subst.
    unfold key at 1 2. rewrite Hy', Hx. cbn.
    destruct (fy <? fx)%float eqn:E.
    + destruct (IH Ht) as (t' & Hi & Hs').
      rewrite Hi. cbn. eexists. split; [reflexivity|].
      constructor; [exact Hs'|].
      apply (Permutation_Forall (insert_perm _ _ Hi)).
      constructor; [|exact Hy].
      exists fy, fx. repeat split; try assumption.
      now apply fle_of_flt.
    + eexists. split; [reflexivity|].
      assert (key_le k x y) as Hxy.
      { exists fx, fy. repeat split; try assumption.
        now apply fle_of_not_flt. }
      constructor; [constructor; assumption|].
      constructor; [exact Hxy|].
      eapply Forall_impl; [|exact Hy].
      intros z (a & b & Ha & Hb & Hab).
      destruct Hxy as (a' & b' & Ha' & Hb' & Hab').
      exists a', b. repeat split; try assumption.
      assert (b' = a) as -> by congruence.
      eapply fle_trans; eassumption.
Qed.

Lemma stable_sort_sorted (l : list raw) :
  Forall (float_key k) l ->
  exists l', stable_sort key l = Ok l' /\ StronglySorted (key_le k) l'.
Proof.
  induction 1 as [|x t Hx Ht IH]; cbn.
  - eexists. split; [reflexivity | constructor].
  - destruct IH as (s & Hs & Hss). rewrite Hs. cbn.
    apply insert_sorted; try assumption.
    apply (Permutation_Forall (stable_sort_perm _ Hs)). exact Ht.
Qed.

Lemma sorted_spec (l : list raw) (reverse : bool) :
  Forall (float_key k) l ->
  exists l',
    sorted key l reverse = Ok l' /\ Permutation l l' /\
    if reverse then StronglySorted (fun a b => key_le k b a) l'
    else StronglySorted (key_le k) l'.
Proof.
  intros Hl. unfold sorted. destruct reverse.
  - destruct (@stable_sort_sorted (rev l)) as (s & Hs & Hss).
    { apply Forall_rev. exact Hl. }
    rewrite Hs. cbn. eexists. split; [reflexivity|]. split.
    + rewrite <- (Permutation_rev s).
      rewrite <- (stable_sort_perm _ Hs). apply Permutation_rev.
    + now apply StronglySorted_rev.
  - destruct (stable_sort_sorted Hl) as (s & Hs & Hss).
    exists s. split; [exact Hs|]. split; [|exact Hss].
    now apply stable_sort_perm.
Qed.

End SortByKey.

(** C6, as the code has it: for a field among height, weight and bmi and
    the direction "asc" or "desc", over a store whose records all hold a
    float other than NaN under that field, the sort loads the store and
    returns its raw records as they are stored, each once, in ascending or
    in descending order of the stored value of the field; for any other
    field or direction it raises an HTTP 400 error and the store is not
    loaded. *)
Theorem C6_sort_returns_stored_records :
  (forall (sort_by order : string) (data : store),
      In sort_by valid_fields ->
      order = "asc" \/ order = "desc" ->
      Forall (float_key sort_by) (dict_values data) ->
      exists l,
        run (sort_patients sort_by order) data
        = (Ok l, {| file := data; log := [Load] |}) /\
        Permutation (dict_values data) l /\
        (order = "asc" -> StronglySorted (key_le sort_by) l) /\
        (order = "desc" ->
         StronglySorted (fun a b => key_le sort_by b a) l)) /\
  (forall (sort_by order : string) (data : store),
      ~ In sort_by valid_fields \/ (order <> "asc" /\ order <> "desc") ->
      exists detail,
        run (sort_patients sort_by order) data
        = (Raise (HTTPException 400 detail), {| file := data; log := [] |})).
Proof.
  split.
  - intros sort_by order data Hf Ho Hk.
    unfold run, sort_patients.
    apply existsb_eqb_In in Hf. rewrite Hf. cbn [negb].
    assert (existsb (String.eqb order) ["asc"; "desc"] = true) as ->.
    { apply existsb_eqb_In. cbn. destruct Ho; auto. }
    cbn [negb]. unfold bind, get_patient_data, lift. cbn -[sorted dict_values].
    destruct (sorted_spec (if String.eqb order "desc" then true else false)
                Hk) as (l & Hs & Hp & Hss).
    rewrite Hs. exists l. split; [reflexivity|]. split; [exact Hp|].
    destruct Ho as [-> | ->]; cbn in Hss; split; intros E;
      try discriminate; exact Hss.
  - intros sort_by order data Hbad.
    unfold run, sort_patients.
    destruct (existsb (String.eqb sort_by) valid_fields) eqn:Ef; cbn [negb].
    + destruct (existsb (String.eqb order) ["asc"; "desc"]) eqn:Eo;
        cbn [negb].
      * apply existsb_eqb_In in Ef, Eo. cbn in Eo.
        destruct Hbad as [Hn | [Ha Hd]]; [contradiction|].
        destruct Eo as [E | [E | []]]; congruence.
      * eexists. reflexivity.
    + eexists. reflexivity.
Qed.

(** The two weights of a store sorted both ways, and the field "name"
    and the direction "up" refused. *)
Lemma C6_sort_returns_stored_records_witness :
  (exists l,
      run (sort_patients "weight" "desc")
        [("P001", [("weight", JFloat 60)]); ("P002", john_record)]
      = (Ok l,
         {| file := [("P001", [("weight", JFloat 60)]); ("P002", john_record)];
            log := [Load] |}) /\
      Permutation [[("weight", JFloat 60)]; john_record] l /\
      ("desc" = "asc" -> StronglySorted (key_le "weight") l) /\
      ("desc" = "desc" ->
       StronglySorted (fun a b => key_le "weight" b a) l)) /\
  (exists detail,
      run (sort_patients "name" "up") [("P002", john_record)]
      = (Raise (HTTPException 400 detail),
         {| file := [("P002", john_record)]; log := [] |})).
Proof.
  split.
  - apply (proj1 C6_sort_returns_stored_records "weight" "desc"
             [("P001", [("weight", JFloat 60)]); ("P002", john_record)]).
    + cbn. tauto.
    + right. reflexivity.
    + repeat constructor; eexists; split; reflexivity.
  - apply (proj2 C6_sort_returns_stored_records "name" "up").
    right. split; discriminate.
Defined.

(** C6, as stated, fails: over a store of two hand-written records the
    sort by weight returns those raw records, which hold no bmi, no
    bmi_category and do not validate as Patients under any id. *)
Lemma C6_counterexample :
  exists data l,
    run (sort_patients "weight" "asc") data
    = (Ok l, {| file := data; log := [Load] |}) /\
    l = [[("weight", JFloat 60)]; [("weight", JFloat 70)]] /\
    Forall (fun r =>
              dict_get "bmi" r = None /\ dict_get "bmi_category" r = None /\
              forall (c : Coercions) (i : string),
                @Patient.validate c (dict_set "id" (JStr i) r)
                = Raise (ValidationError
                           ["name"; "city"; "age"; "height"; "gender"])) l.
Proof.
  exists [("P001", [("weight", JFloat 70)]); ("P002", [("weight", JFloat 60)])].
  eexists. split; [reflexivity|]. split; [reflexivity|].
  repeat constructor.
Qed.

(** Over a store written by two creates, one of a patient of weight zero,
    whose bmi is null, the sort by bmi raises [TypeError]. *)
Lemma sort_by_null_bmi_raises :
  let data :=
    file (snd (run (create_patiet
                      (Patient.make "P002" "Ann" "Pune" 41 1.6 Female 0))
                 (file (snd (run (create_patiet john) []))))) in
  dict_values data
  = [john_record;
     [("name", JStr "Ann"); ("city", JStr "Pune"); ("age", JInt 41);
      ("height", JFloat 1.6); ("gender", JStr "Female");
      ("weight", JFloat 0); ("bmi", JNull);
      ("bmi_category", JStr "Unknown")]] /\
  run (sort_patients "bmi" "asc") data
  = (Raise TypeError, {| file := data; log := [Load] |}).
Proof. split; reflexivity. Qed.

(** * Further properties of the endpoints *)

(** ** More on dictionaries *)

Lemma dict_in_false_keys (V : Type) (k : string) (d : dict V) :
  dict_in k d = false <-> ~ In k (dict_keys d).
Proof.
  unfold dict_in. induction d as [|[k0 v0] t IH]; cbn.
  - split; [tauto | reflexivity].
  - destruct (String.eqb_spec k k0) as [->|Hne].
    + split; [discriminate | intros Hn; exfalso; apply Hn; now left].
    + rewrite IH. split.
      * intros Hn [E|Hin]; [congruence | contradiction].
      * intros Hn Hin. apply Hn. now right.
Qed.

Lemma dict_get_del_other (V : Type) (k k' : string) (d : dict V) :
  k <> k' -> dict_get k (dict_del k' d) = dict_get k d.
Proof.
  intros Hne. induction d as [|[k0 v0] t IH]; cbn; [reflexivity|].
  destruct (String.eqb_spec k' k0) as [->|Hne0]; cbn.
  - destruct (String.eqb_spec k k0); [contradiction | reflexivity].
  - rewrite IH. reflexivity.
Qed.

Lemma dict_get_del_same (V : Type) (k : string) (d : dict V) :
  NoDup (dict_keys d) -> dict_get k (dict_del k d) = None.
Proof.
  induction d as [|[k0 v0] t IH]; cbn; [reflexivity|].
  intros Hnd. inversion Hnd as [|? ? Hnotin Hnd']; subst.
  destruct (String.eqb_spec k k0) as [->|Hne]; cbn.
  - apply dict_in_false_keys in Hnotin. unfold dict_in in Hnotin.
    destruct (dict_get k0 t); [discriminate | reflexivity].
  - destruct (String.eqb_spec k k0); [contradiction|]. now apply IH.
Qed.

Lemma dict_keys_del (V : Type) (k : string) (d : dict V) :
  NoDup (dict_keys d) ->
  dict_keys (dict_del k d)
  = filter (fun x => negb (String.eqb k x)) (dict_keys d).
Proof.
  unfold dict_keys.
  induction d as [|[k0 v0] t IH]; cbn; [reflexivity|].
  intros Hnd. inversion Hnd as [|? ? Hnotin Hnd']; subst.
  destruct (String.eqb_spec k k0) as [->|Hne]; cbn.
  - symmetry. apply forallb_filter_id. apply forallb_forall.
    intros x Hx. destruct (String.eqb_spec k0 x); [congruence | reflexivity].
  - rewrite IH by assumption. reflexivity.
Qed.

Lemma dict_keys_set_in (V : Type) (k : string) (v : V) (d : dict V) :
  dict_in k d = true -> dict_keys (dict_set k v d) = dict_keys d.
Proof.
  unfold dict_in, dict_keys.
  induction d as [|[k0 v0] t IH]; cbn; [discriminate|].
  destruct (String.eqb k k0); cbn; [reflexivity|].
  intros Hin. rewrite IH by exact Hin. reflexivity.
Qed.

Lemma dict_keys_set_new (V : Type) (k : string) (v : V) (d : dict V) :
  dict_in k d = false ->
  dict_keys (dict_set k v d) = (dict_keys d ++ [k])%list.
Proof.
  unfold dict_in, dict_keys.
  induction d as [|[k0 v0] t IH]; cbn; [reflexivity|].
  destruct (String.eqb k k0); cbn; [discriminate|].
  intros Hin. rewrite IH by exact Hin. reflexivity.
Qed.

Lemma dict_del_set_new (V : Type) (k : string) (v : V) (d : dict V) :
  dict_in k d = false -> dict_del k (dict_set k v d) = d.
Proof.
  unfold dict_in. induction d as [|[k0 v0] t IH]; cbn.
  - rewrite String.eqb_refl. reflexivity.
  - destruct (String.eqb k k0) eqn:E; cbn; [discriminate|].
    rewrite E. intros Hin. rewrite IH by exact Hin. reflexivity.
Qed.

Lemma dict_get_set_other (V : Type) (k k' : string) (v : V) (d : dict V) :
  k <> k' -> dict_get k (dict_set k' v d) = dict_get k d.
Proof.
  intros Hne. rewrite dict_get_set.
  destruct (String.eqb_spec k k'); [contradiction | reflexivity].
Qed.

Lemma dict_values_set_Forall (V : Type) (P : V -> Prop) (k : string) (v : V)
  (d : dict V) :
  P v -> Forall P (dict_values d) -> Forall P (dict_values (dict_set k v d)).
Proof.
  intros Hv. induction d as [|[k0 v0] t IH]; cbn; intros Hd.
  - constructor; [exact Hv | constructor].
  - inversion Hd; subst.
    destruct (String.eqb k k0); cbn; constructor; auto.
Qed.

Lemma dict_values_del_Forall (V : Type) (P : V -> Prop) (k : string)
  (d : dict V) :
  Forall P (dict_values d) -> Forall P (dict_values (dict_del k d)).
Proof.
  induction d as [|[k0 v0] t IH]; cbn; intros Hd; [constructor|].
  inversion Hd; subst.
  destruct (String.eqb k k0); cbn; [assumption|]. constructor; auto.
Qed.

Lemma NoDup_snoc (A : Type) (l : list A) (a : A) :
  NoDup l -> ~ In a l -> NoDup (l ++ [a])%list.
Proof.
  intros Hl Ha. apply NoDup_app; [exact Hl | repeat constructor; tauto |].
  intros x Hx [<-|[]]. contradiction.
Qed.

(** ** The steps of the reading and deleting endpoints *)

Lemma view_patient_run (patient_id : string) (data : store) :
  run (view_patient patient_id) data =
  match dict_get patient_id data with
  | Some r => (Ok r, {| file := data; log := [Load] |})
  | None => (Raise not_found, {| file := data; log := [Load] |})
  end.
Proof.
  unfold run, view_patient, bind, get_patient_data, ret, raise; cbn.
  destruct (dict_get patient_id data); reflexivity.
Qed.

Lemma delete_patient_run (patient_id : string) (data : store) :
  run (delete_patient patient_id) data =
  if dict_in patient_id data then
    (Ok deleted,
     {| file := dict_del patient_id data;
        log := [Load; Save (dict_del patient_id data)] |})
  else (Raise not_found, {| file := data; log := [Load] |}).
Proof.
  unfold run, delete_patient, bind, get_patient_data, save_patient_data,
    ret, raise; cbn.
  destruct (dict_in patient_id data); reflexivity.
Qed.

(** ** Deleting *)

(** X1: in a store with unique ids, deleting an id that is present saves
    the store without it: the id has no record any more, every other id
    keeps its record, and the remaining ids keep their order and stay
    unique.  Deleting an id that is absent raises the 404 and saves
    nothing. *)
Theorem delete_patient_removes_one (data : store) (patient_id : string) :
  NoDup (dict_keys data) ->
  (dict_in patient_id data = true ->
   run (delete_patient patient_id) data =
   (Ok deleted,
    {| file := dict_del patient_id data;
       log := [Load; Save (dict_del patient_id data)] |}) /\
   dict_get patient_id (dict_del patient_id data) = None /\
   (forall k, k <> patient_id ->
              dict_get k (dict_del patient_id data) = dict_get k data) /\
   dict_keys (dict_del patient_id data)
   = filter (fun x => negb (String.eqb patient_id x)) (dict_keys data) /\
   NoDup (dict_keys (dict_del patient_id data))) /\
  (dict_in patient_id data = false ->
   run (delete_patient patient_id) data =
   (Raise not_found, {| file := data; log := [Load] |})).
Proof.
  intros Hnd. split; intros Hin.
  - rewrite delete_patient_run, Hin.
    split; [reflexivity|]. split; [now apply dict_get_del_same|].
    split; [intros k Hk; now apply dict_get_del_other|].
    split; [now apply dict_keys_del|].
    rewrite dict_keys_del by assumption. now apply NoDup_filter.
  - rewrite delete_patient_run, Hin. reflexivity.
Qed.

Lemma delete_patient_removes_one_witness :
  (dict_in "P001" two_store = true ->
   run (delete_patient "P001") two_store =
   (Ok deleted,
    {| file := dict_del "P001" two_store;
       log := [Load; Save (dict_del "P001" two_store)] |}) /\
   dict_get "P001" (dict_del "P001" two_store) = None /\
   (forall k, k <> "P001" ->
              dict_get k (dict_del "P001" two_store) = dict_get k two_store) /\
   dict_keys (dict_del "P001" two_store)
   = filter (fun x => negb (String.eqb "P001" x)) (dict_keys two_store) /\
   NoDup (dict_keys (dict_del "P001" two_store))) /\
  (dict_in "P001" two_store = false ->
   run (delete_patient "P001") two_store =
   (Raise not_found, {| file := two_store; log := [Load] |})).
Proof.
  apply (@delete_patient_removes_one two_store "P001").
  repeat constructor; cbn; intuition discriminate.
Defined.

(** X2: in a store with unique ids, once an id was deleted, viewing it,
    updating it with any payload and deleting it again all raise the 404
    and leave the store file as the delete saved it. *)
Theorem deleted_patient_not_found (c : Coercions) (data : store)
  (patient_id : string) (u : PatientUpdate.t) (resp : response) (w' : world) :
  NoDup (dict_keys data) ->
  run (delete_patient patient_id) data = (Ok resp, w') ->
  run (view_patient patient_id) (file w')
  = (Raise not_found, {| file := file w'; log := [Load] |}) /\
  run (update_patient patient_id u) (file w')
  = (Raise not_found, {| file := file w'; log := [Load] |}) /\
  run (delete_patient patient_id) (file w')
  = (Raise not_found, {| file := file w'; log := [Load] |}).
Proof.
  intros Hnd. rewrite delete_patient_run.
  destruct (dict_in patient_id data); [|discriminate].
  intros [= _ <-]. cbn [file].
  pose proof (dict_get_del_same patient_id data Hnd) as Hg.
  rewrite view_patient_run, update_patient_run, delete_patient_run.
  unfold dict_in. rewrite Hg. repeat split.
Qed.

Lemma deleted_patient_not_found_witness :
  run (view_patient "P001") (dict_del "P001" two_store)
  = (Raise not_found, {| file := dict_del "P001" two_store; log := [Load] |}) /\
  run (@update_patient exact_types "P001" (only_weight 80))
    (dict_del "P001" two_store)
  = (Raise not_found, {| file := dict_del "P001" two_store; log := [Load] |}) /\
  run (delete_patient "P001") (dict_del "P001" two_store)
  = (Raise not_found, {| file := dict_del "P001" two_store; log := [Load] |}).
Proof.
  apply (@deleted_patient_not_found exact_types two_store "P001"
           (only_weight 80) deleted
           {| file := dict_del "P001" two_store;
              log := [Load; Save (dict_del "P001" two_store)] |}).
  - repeat constructor; cbn; intuition discriminate.
  - reflexivity.
Defined.

(** ** Creating *)

(** X3: a create that succeeds found its id absent and adds one record at
    the end of the store: the ids are the former ones followed by the new
    id, every other id keeps its record, unique ids stay unique, and the
    store was loaded and saved once. *)
Theorem create_patiet_appends (p : Patient.t) (data : store)
  (resp : response) (w' : world) :
  run (create_patiet p) data = (Ok resp, w') ->
  dict_in (Patient.id p) data = false /\
  dict_keys (file w') = (dict_keys data ++ [Patient.id p])%list /\
  (forall k, k <> Patient.id p -> dict_get k (file w') = dict_get k data) /\
  (NoDup (dict_keys data) -> NoDup (dict_keys (file w'))) /\
  log w' = [Load; Save (file w')].
Proof.
  rewrite create_patiet_run.
  destruct (dict_in (Patient.id p) data) eqn:Hin; [discriminate|].
  destruct (Patient.model_dump ["id"] p) as [r|e]; [|discriminate].
  intros [= _ <-]. cbn [file log].
  split; [reflexivity|]. split; [now apply dict_keys_set_new|].
  split; [intros k Hk; now apply dict_get_set_other|].
  split; [|reflexivity].
  intros Hnd. rewrite dict_keys_set_new by exact Hin.
  apply NoDup_snoc; [exact Hnd | now apply dict_in_false_keys].
Qed.

Lemma create_patiet_appends_witness :
  dict_in (Patient.id ann) john_store = false /\
  dict_keys two_store = (dict_keys john_store ++ [Patient.id ann])%list /\
  (forall k, k <> Patient.id ann ->
             dict_get k two_store = dict_get k john_store) /\
  (NoDup (dict_keys john_store) -> NoDup (dict_keys two_store)) /\
  [Load; Save two_store] = [Load; Save two_store].
Proof.
  apply (@create_patiet_appends ann john_store created
           {| file := two_store; log := [Load; Save two_store] |}).
  reflexivity.
Defined.

(** X4: after a create that succeeds, viewing the id of the patient
    returns the dump of that patient: its six primary fields with the
    values of the patient, its bmi and its category, and no id; the view
    saves nothing. *)
Theorem create_then_view (p : Patient.t) (data : store) (resp : response)
  (w' : world) :
  run (create_patiet p) data = (Ok resp, w') ->
  exists b,
    Patient.bmi p = Ok b /\
    run (view_patient (Patient.id p)) (file w') =
    (Ok [("name", JStr (Patient.name p));
         ("city", JStr (Patient.city p));
         ("age", JInt (Patient.age p));
         ("height", JFloat (Patient.height p));
         ("gender", JStr (gender_str (Patient.gender p)));
         ("weight", JFloat (Patient.weight p));
         ("bmi", json_of_bmi b);
         ("bmi_category", JStr (Patient.compute_bmi_category b))],
     {| file := file w'; log := [Load] |}).
Proof.
  rewrite create_patiet_run.
  destruct (dict_in (Patient.id p) data); [discriminate|].
  destruct (Patient.model_dump ["id"] p) as [r|e] eqn:Hd; [|discriminate].
  intros [= _ <-]. cbn [file].
  apply model_dump_ok in Hd. destruct Hd as (b & Hb & ->).
  exists b. split; [exact Hb|].
  rewrite view_patient_run, dict_get_set_same. reflexivity.
Qed.

Lemma create_then_view_witness :
  exists b,
    Patient.bmi ann = Ok b /\
    run (view_patient (Patient.id ann)) two_store =
    (Ok [("name", JStr (Patient.name ann));
         ("city", JStr (Patient.city ann));
         ("age", JInt (Patient.age ann));
         ("height", JFloat (Patient.height ann));
         ("gender", JStr (gender_str (Patient.gender ann)));
         ("weight", JFloat (Patient.weight ann));
         ("bmi", json_of_bmi b);
         ("bmi_category", JStr (Patient.compute_bmi_category b))],
     {| file := two_store; log := [Load] |}).
Proof.
  apply (@create_then_view ann john_store created
           {| file := two_store; log := [Load; Save two_store] |}).
  reflexivity.
Defined.

(** X5: deleting the id of a patient right after a create of it that
    succeeded saves the store as it was before the create. *)
Theorem create_then_delete_restores (p : Patient.t) (data : store)
  (resp : response) (w' : world) :
  run (create_patiet p) data = (Ok resp, w') ->
  run (delete_patient (Patient.id p)) (file w')
  = (Ok deleted, {| file := data; log := [Load; Save data] |}).
Proof.
  rewrite create_patiet_run.
  destruct (dict_in (Patient.id p) data) eqn:Hin; [discriminate|].
  destruct (Patient.model_dump ["id"] p) as [r|e]; [|discriminate].
  intros [= _ <-]. cbn [file].
  rewrite delete_patient_run. unfold dict_in at 1.
  rewrite dict_get_set_same, dict_del_set_new by exact Hin. reflexivity.
Qed.

Lemma create_then_delete_restores_witness :
  run (delete_patient (Patient.id ann)) two_store
  = (Ok deleted, {| file := john_store; log := [Load; Save john_store] |}).
Proof.
  apply (@create_then_delete_restores ann john_store created
           {| file := two_store; log := [Load; Save two_store] |}).
  reflexivity.
Defined.

(** ** Reading *)

Lemma stable_sort_raises (A : Type) (key : A -> jval) (l : list A) (e : exn) :
  stable_sort key l = Raise e -> e = TypeError.
Proof.
  assert (forall a b e', py_lt a b = Raise e' -> e' = TypeError) as Hlt.
  { intros a b e'. destruct a, b; cbn; congruence. }
  assert (forall x s e', insert key x s = Raise e' -> e' = TypeError) as Hi.
  { intros x s. induction s as [|y t IH]; cbn; intros e'; [discriminate|].
    destruct (py_lt (key y) (key x)) as [[|]|e0] eqn:E; cbn.
    - destruct (insert key x t) as [t'|e1]; cbn; [discriminate|].
      intros [= <-]. now apply IH.
    - discriminate.
    - intros [= <-]. now apply Hlt in E. }
  revert e. induction l as [|x t IH]; cbn; intros e; [discriminate|].
  destruct (stable_sort key t) as [s|e0]; cbn.
  - apply Hi.
  - intros [= <-]. now apply IH.
Qed.


(** ** Updating *)

(** X7: whatever its outcome, an update leaves the ids of the store and
    their order as they were, and the record of every id other than its
    own untouched. *)
Theorem update_patient_keeps_others (c : Coercions) (patient_id : string)
  (u : PatientUpdate.t) (data : store) :
  dict_keys (file (snd (run (update_patient patient_id u) data)))
  = dict_keys data /\
  (forall k, k <> patient_id ->
             dict_get k (file (snd (run (update_patient patient_id u) data)))
             = dict_get k data).
Proof.
  rewrite update_patient_run.
  destruct (dict_get patient_id data) as [r|] eqn:Hr; [|split; reflexivity].
  destruct (Patient.validate _) as [p|e]; [|split; reflexivity].
  destruct (Patient.model_dump ["id"] p) as [r'|e]; [|split; reflexivity].
  cbn [snd file]. split.
  - apply dict_keys_set_in. unfold dict_in. rewrite Hr. reflexivity.
  - intros k Hk. now apply dict_get_set_other.
Qed.

(** The merge over the dump of the record it validated to validates to
    that record again. *)
Lemma validate_merged_dump (c : Coercions) (patient_id : string)
  (u : PatientUpdate.t) (r : raw) (p : Patient.t) (b : option float) :
  Patient.validate (merged patient_id u r) = Ok p ->
  Patient.validate (merged patient_id u (dump_of p b)) = Ok p.
Proof.
  intros Hv. apply validate_ok_iff in Hv. apply validate_ok_iff.
  destruct Hv as (H1 & H2 & H3 & H4 & H5 & H6 & H7).
  unfold merged at 1 in H1. unfold merged at 1.
  rewrite field_id_with_id in *.
  repeat match goal with
    | H : context [field ?v ?k (merged ?i ?u ?r)] |- _ =>
        rewrite (@field_merged _ v k i u r) in H by discriminate
    | |- context [field ?v ?k (merged ?i ?u ?r)] =>
        rewrite (@field_merged _ v k i u r) by discriminate
    end.
  unfold merged_value in *. cbn in *.
  split; [exact H1|].
  split; [destruct (PatientUpdate.name u) as [[?|]|]; cbn in *;
          assumption || reflexivity|].
  split; [destruct (PatientUpdate.city u) as [[?|]|]; cbn in *;
          assumption || reflexivity|].
  split; [destruct (PatientUpdate.age u) as [[?|]|]; cbn in *;
          assumption || reflexivity|].
  split; [destruct (PatientUpdate.height u) as [[?|]|]; cbn in *;
          assumption || reflexivity|].
  split; [destruct (PatientUpdate.gender u) as [[?|]|]; cbn in *;
          try assumption; apply validate_gender_str|].
  destruct (PatientUpdate.weight u) as [[?|]|]; cbn in *;
    assumption || reflexivity.
Qed.

(** X8: an update that succeeded is idempotent: the same update run on
    the store it saved succeeds again and saves that same store. *)
Theorem update_patient_idempotent (c : Coercions) (patient_id : string)
  (u : PatientUpdate.t) (data : store) (resp : response) (w' : world) :
  run (update_patient patient_id u) data = (Ok resp, w') ->
  run (update_patient patient_id u) (file w')
  = (Ok updated, {| file := file w'; log := [Load; Save (file w')] |}).
Proof.
  rewrite update_patient_run.
  destruct (dict_get patient_id data) as [r|]; [|discriminate].
  destruct (Patient.validate _) as [p|e] eqn:Hv; [|discriminate].
  destruct (Patient.model_dump ["id"] p) as [r'|e] eqn:Hd; [|discriminate].
  intros [= _ <-]. cbn [file].
  rewrite update_patient_run, dict_get_set_same.
  pose proof Hd as Hd'. apply model_dump_ok in Hd'.
  destruct Hd' as (b & _ & ->).
  rewrite (@validate_merged_dump c patient_id u r p b Hv), Hd, dict_set_set.
  reflexivity.
Qed.

Lemma update_patient_idempotent_witness :
  run (@update_patient exact_types "P002" (only_weight 80))
    [("P001", john_record); ("P002", ann_record)]
  = (Ok updated,
     {| file := two_store; log := [Load; Save two_store] |}).
Proof.
  apply (@update_patient_idempotent exact_types "P002" (only_weight 80)
           [("P001", john_record);
            ("P002", dict_set "weight" (JFloat 50) ann_record)]
           updated {| file := two_store; log := [Load; Save two_store] |}).
  reflexivity.
Defined.

(** X9: a payload that sets all six fields, none to null, replaces the
    record: whatever the store holds under the id, valid or not, the
    merged mapping validates to the patient of the id of the path and of
    the six values of the payload, and the update persists the dump of
    that patient, or raises what the dump raises and saves nothing. *)
Theorem full_payload_replaces (co : Coercions) (data : store)
  (patient_id : string) (r : raw) (n c : string) (a : Z) (h : float)
  (g : Gender) (w : float) :
  dict_get patient_id data = Some r ->
  Patient.validate (merged patient_id (full_payload n c a h g w) r)
  = Ok (Patient.make patient_id n c a h g w) /\
  run (update_patient patient_id (full_payload n c a h g w)) data =
  match Patient.model_dump ["id"] (Patient.make patient_id n c a h g w) with
  | Ok r' =>
      (Ok updated,
       {| file := dict_set patient_id r' data;
          log := [Load; Save (dict_set patient_id r' data)] |})
  | Raise e => (Raise e, {| file := data; log := [Load] |})
  end.
Proof.
  intros Hr.
  assert (Patient.validate (merged patient_id (full_payload n c a h g w) r)
          = Ok (Patient.make patient_id n c a h g w)) as Hv.
  { apply validate_ok_iff. unfold merged at 1.
    rewrite field_id_with_id. rewrite !field_merged by discriminate.
    cbn. destruct g; repeat split. }
  split; [exact Hv|].
  rewrite update_patient_run, Hr, Hv.
  destruct (Patient.model_dump _ _); reflexivity.
Qed.

Lemma full_payload_replaces_witness :
  @Patient.validate exact_types
    (merged "P001" (full_payload "Ann" "Pune" 41 1.6 Female 80)
       [("name", JNull)])
  = Ok (Patient.make "P001" "Ann" "Pune" 41 1.6 Female 80) /\
  run (@update_patient exact_types "P001"
         (full_payload "Ann" "Pune" 41 1.6 Female 80))
    [("P001", [("name", JNull)])] =
  match Patient.model_dump ["id"]
          (Patient.make "P001" "Ann" "Pune" 41 1.6 Female 80) with
  | Ok r' =>
      (Ok updated,
       {| file := dict_set "P001" r' [("P001", [("name", JNull)])];
          log := [Load;
                  Save (dict_set "P001" r' [("P001", [("name", JNull)])])] |})
  | Raise e =>
      (Raise e, {| file := [("P001", [("name", JNull)])]; log := [Load] |})
  end.
Proof.
  apply (@full_payload_replaces exact_types [("P001", [("name", JNull)])]
           "P001" [("name", JNull)]).
  reflexivity.
Defined.

(** X10: the dump of a payload whose six fields are all set, to a value
    or to null, validates as a request body to that same payload. *)
Theorem payload_dump_validates (c : Coercions) (u : PatientUpdate.t) :
  all_set u ->
  PatientUpdate.validate (PatientUpdate.model_dump_exclude_unset u) = Ok u.
Proof.
  destruct u as [n ci a h g w]. unfold all_set. cbn.
  intros (Hn & Hc & Ha & Hh & Hg & Hw).
  destruct n as [n|]; [|contradiction]. destruct ci as [ci|]; [|contradiction].
  destruct a as [a|]; [|contradiction]. destruct h as [h|]; [|contradiction].
  destruct g as [g|]; [|contradiction]. destruct w as [w|]; [|contradiction].
  destruct n, ci, a, h, g as [[| |]|], w; reflexivity.
Qed.

Lemma payload_dump_validates_witness :
  @PatientUpdate.validate exact_types
    (PatientUpdate.model_dump_exclude_unset
       (PatientUpdate.make (Some (Some "Ann")) (Some None) (Some (Some 41))
          (Some None) (Some (Some Other)) (Some (Some 80%float))))
  = Ok (PatientUpdate.make (Some (Some "Ann")) (Some None) (Some (Some 41))
          (Some None) (Some (Some Other)) (Some (Some 80%float))).
Proof.
  apply (@payload_dump_validates exact_types).
  unfold all_set. cbn. repeat split; discriminate.
Defined.

(** ** The store as the endpoints keep it *)

(** X11: a store with unique ids whose records are all dumps of patients
    is such a store again after any create, any update and any delete,
    whatever their outcome. *)
Theorem dumped_store_invariant (c : Coercions) (data : store) :
  NoDup (dict_keys data) ->
  Forall dumped_form (dict_values data) ->
  (forall p,
      NoDup (dict_keys (file (snd (run (create_patiet p) data)))) /\
      Forall dumped_form
        (dict_values (file (snd (run (create_patiet p) data))))) /\
  (forall patient_id u,
      NoDup (dict_keys (file (snd (run (update_patient patient_id u) data))))
      /\
      Forall dumped_form
        (dict_values (file (snd (run (update_patient patient_id u) data)))))
  /\
  (forall patient_id,
      NoDup (dict_keys (file (snd (run (delete_patient patient_id) data))))
      /\
      Forall dumped_form
        (dict_values (file (snd (run (delete_patient patient_id) data))))).
Proof.
  intros Hnd Hall. repeat apply conj.
  - intros p. rewrite create_patiet_run.
    destruct (dict_in (Patient.id p) data) eqn:Hin; [now split|].
    destruct (Patient.model_dump ["id"] p) as [r|e] eqn:Hd; [|now split].
    cbn [snd file]. split.
    + rewrite dict_keys_set_new by exact Hin.
      apply NoDup_snoc; [exact Hnd | now apply dict_in_false_keys].
    + apply dict_values_set_Forall; [|exact Hall].
      apply model_dump_ok in Hd. destruct Hd as (b & Hb & ->).
      now exists p, b.
  - intros patient_id u.
    destruct (update_patient_keeps_others c patient_id u data) as [-> _].
    split; [exact Hnd|]. rewrite update_patient_run.
    destruct (dict_get patient_id data) as [r|]; [|exact Hall].
    destruct (Patient.validate _) as [p|e]; [|exact Hall].
    destruct (Patient.model_dump ["id"] p) as [r'|e] eqn:Hd; [|exact Hall].
    cbn [snd file]. apply dict_values_set_Forall; [|exact Hall].
    apply model_dump_ok in Hd. destruct Hd as (b & Hb & ->).
    now exists p, b.
  - intros patient_id. rewrite delete_patient_run.
    destruct (dict_in patient_id data); [|now split].
    cbn [snd file]. split.
    + rewrite dict_keys_del by exact Hnd. now apply NoDup_filter.
    + now apply dict_values_del_Forall.
Qed.

Lemma dumped_store_invariant_witness :
  (forall p,
      NoDup (dict_keys (file (snd (run (create_patiet p) two_store)))) /\
      Forall dumped_form
        (dict_values (file (snd (run (create_patiet p) two_store))))) /\
  (forall patient_id u,
      NoDup (dict_keys
               (file (snd (run (@update_patient exact_types patient_id u)
                             two_store)))) /\
      Forall dumped_form
        (dict_values
           (file (snd (run (@update_patient exact_types patient_id u)
                         two_store))))) /\
  (forall patient_id,
      NoDup (dict_keys (file (snd (run (delete_patient patient_id)
                                     two_store)))) /\
      Forall dumped_form
        (dict_values (file (snd (run (delete_patient patient_id)
                                   two_store))))).
Proof.
  apply (@dumped_store_invariant exact_types two_store).
  - repeat constructor; cbn; intuition discriminate.
  - repeat constructor.
    + exists john, (Some 22.857142857142858%float). split; reflexivity.
    + exists ann, (Some 31.249999999999993%float). split; reflexivity.
Defined.

(** ** The category "Unknown" *)

(** X12: the category of a patient is "Unknown" exactly when its weight
    or its height is zero. *)
Theorem bmi_category_unknown_iff (p : Patient.t) :
  Patient.bmi_category p = Ok "Unknown" <->
  float_truthy (Patient.weight p) = false \/
  float_truthy (Patient.height p) = false.
Proof.
  unfold Patient.bmi_category, Patient.bmi, Patient.compute_bmi.
  destruct (float_truthy (Patient.weight p)),
    (float_truthy (Patient.height p)); cbn;
    try (split; [auto | reflexivity]).
  split; [|intros [H|H]; discriminate].
  destruct (float_pow2 (Patient.height p)) as [h2|e]; cbn; [|discriminate].
  destruct (float_div (Patient.weight p) h2) as [b|e]; cbn; [|discriminate].
  destruct (b <? 18.5)%float; [discriminate|].
  destruct ((18.5 <=? b)%float && (b <? 24.9)%float); [discriminate|].
  destruct ((25 <=? b)%float && (b <? 29.9)%float); discriminate.
Qed.

(** ** More on sorting *)

Lemma fle_not_flt (a b : float) :
  (a <=? b)%float = true -> (b <? a)%float = false.
Proof. intros H. float_order. Qed.

Lemma fle_refl (a : float) : is_nan a = false -> (a <=? a)%float = true.
Proof. intros H. float_order. Qed.

Lemma py_lt_null_l (b : jval) : py_lt JNull b = Raise TypeError.
Proof. reflexivity. Qed.

Lemma py_lt_null_r (a : jval) : py_lt a JNull = Raise TypeError.
Proof. destruct a; reflexivity. Qed.

Section SortEdges.

Variable k : string.

Let key : raw -> jval := get_or_none k.

Lemma stable_sort_null (l : list raw) :
  (2 <= List.length l)%nat ->
  Exists (fun r => get_or_none k r = JNull) l ->
  stable_sort key l = Raise TypeError.
Proof.
  induction l as [|x t IH]; cbn [List.length]; intros Hlen Hex; [lia|].
  cbn [stable_sort].
  destruct (stable_sort key t) as [s|e] eqn:Hs; cbn [rbind].
  - pose proof (Permutation_length (stable_sort_perm k t Hs)) as Hl.
    destruct s as [|y s']; [cbn in Hl; lia|].
    cbn [insert].
    inversion Hex as [? ? Hx | ? ? Ht]; subst.
    + unfold key at 2. rewrite Hx, py_lt_null_r. reflexivity.
    + destruct t as [|z [|z' t']].
      * inversion Ht.
      * cbn in Hs. inversion Hs; subst.
        inversion Ht as [? ? Hz | ? ? Hn]; subst; [|inversion Hn].
        unfold key at 1. rewrite Hz. reflexivity.
      * enough (@Ok (list raw) (y :: s') = Raise TypeError) by discriminate.
        apply IH; [cbn; lia | exact Ht].
  - f_equal. now apply stable_sort_raises in Hs.
Qed.

Lemma stable_sort_ordered (l : list raw) :
  Forall (float_key k) l -> StronglySorted (key_le k) l ->
  stable_sort key l = Ok l.
Proof.
  intros Hf Hs. induction Hs as [|x t Hs IH Hx]; [reflexivity|].
  inversion Hf; subst. cbn [stable_sort]. rewrite IH by assumption.
  cbn [rbind]. destruct t as [|y t']; [reflexivity|].
  inversion Hx as [|? ? (a & b & Ha & Hb & Hab) _]; subst.
  cbn [insert]. unfold key. rewrite Ha, Hb. cbn.
  rewrite (fle_not_flt Hab). reflexivity.
Qed.

Lemma sorted_ordered (l : list raw) :
  Forall (float_key k) l ->
  (StronglySorted (key_le k) l -> sorted key l false = Ok l) /\
  (StronglySorted (fun a b => key_le k b a) l -> sorted key l true = Ok l).
Proof.
  intros Hf. unfold sorted. split; intros Hs.
  - now apply stable_sort_ordered.
  - rewrite stable_sort_ordered.
    + cbn. rewrite rev_involutive. reflexivity.
    + now apply Forall_rev.
    + apply StronglySorted_rev in Hs. exact Hs.
Qed.

Lemma ties_ordered (f : float) (l : list raw) :
  is_nan f = false ->
  Forall (fun r => get_or_none k r = JFloat f) l ->
  Forall (float_key k) l /\ StronglySorted (key_le k) l /\
  StronglySorted (fun a b => key_le k b a) l.
Proof.
  intros Hn Hl.
  assert (forall a b, get_or_none k a = JFloat f ->
                      get_or_none k b = JFloat f -> key_le k a b) as Hle.
  { intros a b Ha Hb. exists f, f. repeat split; try assumption.
    now apply fle_refl. }
  induction Hl as [|x t Hx Ht (IH1 & IH2 & IH3)].
  - repeat split; constructor.
  - repeat split.
    + constructor; [now exists f | exact IH1].
    + constructor; [exact IH2|].
      eapply Forall_impl; [|exact Ht]. intros b Hb. now apply Hle.
    + constructor; [exact IH3|].
      eapply Forall_impl; [|exact Ht]. intros b Hb. now apply Hle.
Qed.

End SortEdges.

Lemma sort_patients_run (sort_by order : string) (data : store) :
  In sort_by valid_fields -> order = "asc" \/ order = "desc" ->
  run (sort_patients sort_by order) data =
  (sorted (get_or_none sort_by) (dict_values data)
     (if String.eqb order "desc" then true else false),
   {| file := data; log := [Load] |}).
Proof.
  intros Hf Ho. unfold run, sort_patients.
  apply existsb_eqb_In in Hf. rewrite Hf. cbn [negb].
  assert (existsb (String.eqb order) ["asc"; "desc"] = true) as ->.
  { apply existsb_eqb_In. cbn. destruct Ho; auto. }
  reflexivity.
Qed.

(** X13: over a store of two records or more, a sort by a field that
    some record holds as null or does not hold at all raises [TypeError],
    in both directions; the store is loaded and nothing is saved. *)
Theorem sort_null_key_raises (sort_by order : string) (data : store) :
  In sort_by valid_fields -> order = "asc" \/ order = "desc" ->
  (2 <= List.length data)%nat ->
  Exists (fun r => dict_get sort_by r = None \/
                   dict_get sort_by r = Some JNull) (dict_values data) ->
  run (sort_patients sort_by order) data
  = (Raise TypeError, {| file := data; log := [Load] |}).
Proof.
  intros Hf Ho Hlen Hex. rewrite sort_patients_run by assumption.
  assert (Exists (fun r => get_or_none sort_by r = JNull) (dict_values data))
    as Hex'.
  { eapply Exists_impl; [|exact Hex]. intros r [H|H];
      unfold get_or_none; rewrite H; reflexivity. }
  assert (2 <= List.length (dict_values data))%nat as Hlen'
      by (unfold dict_values; now rewrite length_map).
  unfold sorted.
  destruct (if String.eqb order "desc" then true else false).
  - rewrite stable_sort_null; [reflexivity | now rewrite length_rev |].
    now apply Exists_rev.
  - rewrite stable_sort_null; [reflexivity | exact Hlen' | exact Hex'].
Qed.

(** The store of [john] and of a patient of weight zero, as two creates
    write it, sorted by bmi. *)
Lemma sort_null_key_raises_witness :
  run (sort_patients "bmi" "desc")
    [("P001", john_record);
     ("P002", [("name", JStr "Ann"); ("city", JStr "Pune"); ("age", JInt 41);
               ("height", JFloat 1.6); ("gender", JStr "Female");
               ("weight", JFloat 0); ("bmi", JNull);
               ("bmi_category", JStr "Unknown")])]
  = (Raise TypeError,
     {| file :=
          [("P001", john_record);
           ("P002", [("name", JStr "Ann"); ("city", JStr "Pune");
                     ("age", JInt 41); ("height", JFloat 1.6);
                     ("gender", JStr "Female"); ("weight", JFloat 0);
                     ("bmi", JNull); ("bmi_category", JStr "Unknown")])];
        log := [Load] |}).
Proof.
  apply sort_null_key_raises.
  - cbn. tauto.
  - right. reflexivity.
  - cbn. lia.
  - right. left. right. reflexivity.
Defined.

(** X14: over a store of no record or of one, a sort by a valid field in
    a valid direction compares nothing and returns the records of the
    store as they are, whatever they hold. *)
Theorem sort_small_store (sort_by order : string) (data : store) :
  In sort_by valid_fields -> order = "asc" \/ order = "desc" ->
  (List.length data <= 1)%nat ->
  run (sort_patients sort_by order) data
  = (Ok (dict_values data), {| file := data; log := [Load] |}).
Proof.
  intros Hf Ho Hlen. rewrite sort_patients_run by assumption.
  destruct data as [|[i r] [|? ?]]; [| |cbn in Hlen; lia];
    destruct (if String.eqb order "desc" then true else false); reflexivity.
Qed.

Lemma sort_small_store_witness :
  run (sort_patients "height" "asc") [("P001", [("name", JNull)])]
  = (Ok (dict_values [("P001", [("name", JNull)])]),
     {| file := [("P001", [("name", JNull)])]; log := [Load] |}).
Proof.
  apply sort_small_store.
  - cbn. tauto.
  - left. reflexivity.
  - cbn. lia.
Defined.

(** X15: over a store whose records all hold a float other than NaN under
    the field, a sort returns the records in the order of the store when
    the store is already in the order asked for, ascending or descending;
    in particular records that all hold the same value come back in the
    order of the store in both directions. *)
Theorem sort_keeps_ordered_store (sort_by : string) (data : store) :
  In sort_by valid_fields ->
  Forall (float_key sort_by) (dict_values data) ->
  (StronglySorted (key_le sort_by) (dict_values data) ->
   run (sort_patients sort_by "asc") data
   = (Ok (dict_values data), {| file := data; log := [Load] |})) /\
  (StronglySorted (fun a b => key_le sort_by b a) (dict_values data) ->
   run (sort_patients sort_by "desc") data
   = (Ok (dict_values data), {| file := data; log := [Load] |})) /\
  (forall f,
      Forall (fun r => get_or_none sort_by r = JFloat f) (dict_values data) ->
      run (sort_patients sort_by "asc") data
      = (Ok (dict_values data), {| file := data; log := [Load] |}) /\
      run (sort_patients sort_by "desc") data
      = (Ok (dict_values data), {| file := data; log := [Load] |})).
Proof.
  intros Hf Hk.
  destruct (sorted_ordered Hk) as [Hasc Hdesc].
  assert (forall o, o = "asc" \/ o = "desc" ->
                    run (sort_patients sort_by o) data =
                    (sorted (get_or_none sort_by) (dict_values data)
                       (if String.eqb o "desc" then true else false),
                     {| file := data; log := [Load] |})) as Hrun
      by (intros; now apply sort_patients_run).
  assert (StronglySorted (key_le sort_by) (dict_values data) ->
          run (sort_patients sort_by "asc") data
          = (Ok (dict_values data), {| file := data; log := [Load] |})) as Ha.
  { intros Hs. rewrite Hrun by auto. cbn [String.eqb Ascii.eqb Bool.eqb].
    change (if ("asc" =? "desc")%string then true else false) with false.
    rewrite (Hasc Hs). reflexivity. }
  assert (StronglySorted (fun a b => key_le sort_by b a) (dict_values data) ->
          run (sort_patients sort_by "desc") data
          = (Ok (dict_values data), {| file := data; log := [Load] |})) as Hd.
  { intros Hs. rewrite Hrun by auto.
    change (if ("desc" =? "desc")%string then true else false) with true.
    rewrite (Hdesc Hs). reflexivity. }
  split; [exact Ha|]. split; [exact Hd|].
  intros f Hall.
  destruct (dict_values data) as [|x t] eqn:Hv.
  - split; [apply Ha | apply Hd]; constructor.
  - inversion Hk as [|? ? (fx & Hfx & Hnx) _]; subst.
    inversion Hall as [|? ? Hx _]; subst.
    assert (is_nan f = false) as Hn by congruence.
    destruct (@ties_ordered sort_by f _ Hn Hall) as (_ & H1 & H2).
    split; [now apply Ha | now apply Hd].
Qed.

Lemma sort_keeps_ordered_store_witness :
  (StronglySorted (key_le "weight") (dict_values two_store) ->
   run (sort_patients "weight" "asc") two_store
   = (Ok (dict_values two_store), {| file := two_store; log := [Load] |})) /\
  (StronglySorted (fun a b => key_le "weight" b a) (dict_values two_store) ->
   run (sort_patients "weight" "desc") two_store
   = (Ok (dict_values two_store), {| file := two_store; log := [Load] |})) /\
  (forall f,
      Forall (fun r => get_or_none "weight" r = JFloat f)
        (dict_values two_store) ->
      run (sort_patients "weight" "asc") two_store
      = (Ok (dict_values two_store), {| file := two_store; log := [Load] |}) /\
      run (sort_patients "weight" "desc") two_store
      = (Ok (dict_values two_store), {| file := two_store; log := [Load] |})).
Proof.
  apply (@sort_keeps_ordered_store "weight" two_store).
  - cbn. tauto.
  - repeat constructor; eexists; split; reflexivity.
Defined.
